(** * deck.gl: the mesh-layers documentation demo and the pydeck
      "Binary Transport" notebook

    Two leaf files are embedded here.

    - [website/src/doc-demos/mesh-layers.js] registers two loaders and
      exports two layer demos, each built by [makeLayerDemo] from an
      object literal.  The object literals carry JavaScript source
      strings ([getTooltip], [props]) that the demo harness evaluates;
      the arrow functions written in those strings are embedded below as
      functions in a state-and-exception monad.
    - [bindings/pydeck/examples/07 - Binary Transport.ipynb] reshapes a
      pandas DataFrame and hands it to pydeck.  Its code cells are
      embedded as one program in the same monad, over a log of the calls
      made to the binding. *)

From Stdlib Require Import String Ascii List Bool ZArith Lia.
From Stdlib Require Import PrimFloat SpecFloat FloatOps.
Import ListNotations.

Local Open Scope list_scope.
Local Open Scope string_scope.

Set Warnings "-register-all,-inexact-float".

(** ** A state-and-exception monad

    Both programs run statements in order, mutate shared state and stop at
    the first error thrown.  A computation takes the state and returns an
    outcome together with the state reached; after [Throw] the rest of the
    program is skipped and the state is the one at the point of failure. *)

Module Eff.

Inductive Outcome (E A : Type) : Type :=
| Ok (a : A)
| Throw (e : E).

Arguments Ok {E A} a.
Arguments Throw {E A} e.

Definition M (S E A : Type) : Type := S -> Outcome E A * S.

Definition ret {S E A} (a : A) : M S E A := fun s => (Ok a, s).

Definition throw {S E A} (e : E) : M S E A := fun s => (Throw e, s).

Definition bind {S E A B} (c : M S E A) (k : A -> M S E B) : M S E B :=
  fun s =>
    match c s with
    | (Ok a, s') => k a s'
    | (Throw e, s') => (Throw e, s')
    end.

Definition modify {S E} (f : S -> S) : M S E unit := fun s => (Ok tt, f s).

(** Computations that touch no state: an outcome alone. *)
Definition and_then {E A B} (o : Outcome E A) (k : A -> Outcome E B)
  : Outcome E B :=
  match o with
  | Ok a => k a
  | Throw e => Throw e
  end.

(** Applies [f] to the elements of [l] from left to right and collects
    the results; the first error ends the traversal. *)
Fixpoint traverse {E A B} (f : A -> Outcome E B) (l : list A)
  : Outcome E (list B) :=
  match l with
  | [] => Ok []
  | a :: rest =>
      and_then (f a) (fun b => and_then (traverse f rest) (fun bs => Ok (b :: bs)))
  end.

Definition lift {S E A} (o : Outcome E A) : M S E A := fun s => (o, s).

Definition is_ok {E A} (o : Outcome E A) : bool :=
  match o with Ok _ => true | Throw _ => false end.

End Eff.

Import Eff.

Declare Scope eff_scope.
Delimit Scope eff_scope with eff.
Notation "x <- c ;; k" := (Eff.bind c (fun x => k))
  (at level 61, c at next level, right associativity) : eff_scope.
Notation "c ;;; k" := (Eff.bind c (fun _ => k))
  (at level 61, right associativity) : eff_scope.
Notation "x <~ o ;; k" := (Eff.and_then o (fun x => k))
  (at level 61, o at next level, right associativity) : eff_scope.
Local Open Scope eff_scope.

(** The newline character, written [\n] in a quoted JavaScript string and
    as a line break inside a template literal. *)
Definition nl : string := String (ascii_of_nat 10) EmptyString.

(** * Part I: [website/src/doc-demos/mesh-layers.js] *)

Module MeshLayers.

(** ** Run-time data

    The values the accessors and the tooltip function receive: the rows of
    [bart-stations.json] and what can be read from them, that is the JSON
    range of JavaScript values together with [undefined].  Numbers are IEEE
    binary64, as in the language. *)

Inductive JSValue : Type :=
| JSUndefined
| JSNull
| JSBoolean (b : bool)
| JSNumber (x : float)
| JSString (s : string)
| JSArray (elements : list JSValue)
| JSObject (props : list (string * JSValue)).

Inductive JSError : Type :=
| TypeError.

(** The two conversions of the language whose result on numbers and
    strings is fixed by the engine: [Number::toString] and
    [StringToNumber]. *)
Class Engine : Type := {
  Number_toString : float -> string;
  String_toNumber : string -> float
}.

(** What the evaluation of the source strings can observe and change: the
    sequence of values [Math.random()] hands out, how many of them were
    drawn, and the property reads performed so far (most recent first). *)
Record World : Type := {
  random_sequence : nat -> float;
  random_drawn : nat;
  property_reads : list (JSValue * string)
}.

Definition JS (A : Type) : Type := Eff.M World JSError A.

(** [Math.random()]: the next value of the sequence. *)
Definition Math_random : JS float :=
  fun w =>
    (Ok (random_sequence w (random_drawn w)),
     {| random_sequence := random_sequence w;
        random_drawn := S (random_drawn w);
        property_reads := property_reads w |}).

Definition record_read (v : JSValue) (p : string) (w : World) : World :=
  {| random_sequence := random_sequence w;
     random_drawn := random_drawn w;
     property_reads := (v, p) :: property_reads w |}.

Fixpoint own_property (p : string) (props : list (string * JSValue)) : JSValue :=
  match props with
  | [] => JSUndefined
  | (k, v) :: rest => if String.eqb k p then v else own_property p rest
  end.

Definition nullish (v : JSValue) : bool :=
  match v with
  | JSUndefined | JSNull => true
  | _ => false
  end.

(** The value of [v.p] for a [v] that is neither [undefined] nor [null].
    A plain object yields its own property or [undefined].  The names read
    in this file ([object], [name], [address], [coordinates], [exits]) are
    not defined on arrays, strings, numbers or booleans, which therefore
    yield [undefined]. *)
Definition property_value (v : JSValue) (p : string) : JSValue :=
  match v with
  | JSObject props => own_property p props
  | _ => JSUndefined
  end.

(** Property read [v.p], also the read done by the parameter pattern
    [{p}]: reading from [undefined] or [null] throws a [TypeError], any
    other read is recorded and yields the property's value. *)
Definition Get (v : JSValue) (p : string) : JS JSValue :=
  if nullish v then Eff.throw TypeError
  else Eff.modify (record_read v p) ;;; Eff.ret (property_value v p).

Definition is_nan (x : float) : bool := negb (PrimFloat.eqb x x).

(** [ToBoolean]: the falsy values are [undefined], [null], [false], [+0],
    [-0], [NaN] and the empty string. *)
Definition ToBoolean (v : JSValue) : bool :=
  match v with
  | JSUndefined | JSNull => false
  | JSBoolean b => b
  | JSNumber x => negb (PrimFloat.eqb x 0 || is_nan x)
  | JSString s => negb (String.eqb s "")
  | JSArray _ | JSObject _ => true
  end.

(** [ToString].  An array is joined with commas, its [undefined] and
    [null] elements giving the empty string; a plain object gives
    ["[object Object]"]. *)
Fixpoint ToString {engine : Engine} (v : JSValue) : string :=
  match v with
  | JSUndefined => "undefined"
  | JSNull => "null"
  | JSBoolean true => "true"
  | JSBoolean false => "false"
  | JSNumber x => Number_toString x
  | JSString s => s
  | JSArray elements =>
      (fix join (l : list JSValue) : string :=
         match l with
         | [] => ""
         | e :: rest =>
             let piece :=
               match e with
               | JSUndefined | JSNull => ""
               | _ => ToString e
               end in
             match rest with
             | [] => piece
             | _ :: _ => piece ++ "," ++ join rest
             end
         end) elements
  | JSObject _ => "[object Object]"
  end.

(** [ToNumber].  Arrays and plain objects go through [ToPrimitive], which
    ends in their string conversion. *)
Definition ToNumber `{Engine} (v : JSValue) : float :=
  match v with
  | JSUndefined => nan
  | JSNull => 0%float
  | JSBoolean true => 1%float
  | JSBoolean false => 0%float
  | JSNumber x => x
  | JSString s => String_toNumber s
  | JSArray _ | JSObject _ => String_toNumber (ToString v)
  end.

(** ** The functions written in the source strings *)

(** The template literal [`${object.name}\n${object.address}`]. *)
Definition tooltip_template `{Engine} (object : JSValue) : JS JSValue :=
  name <- Get object "name" ;;
  address <- Get object "address" ;;
  Eff.ret (JSString (ToString name ++ nl ++ ToString address)).

(** [({object}) => object && `${object.name}\n${object.address}`], the
    function of both demos' [getTooltip] strings. *)
Definition getTooltip `{Engine} (info : JSValue) : JS JSValue :=
  object <- Get info "object" ;;
  if ToBoolean object then tooltip_template object else Eff.ret object.

(** [getPosition: d => d.coordinates] (both demos). *)
Definition getPosition (d : JSValue) : JS JSValue :=
  Get d "coordinates".

(** [getOrientation: d => [0, Math.random() * 180, 90]] (ScenegraphLayer). *)
Definition ScenegraphLayer_getOrientation (d : JSValue) : JS JSValue :=
  r <- Math_random ;;
  Eff.ret (JSArray [JSNumber 0; JSNumber (r * 180); JSNumber 90]).

(** [getOrientation: d => [0, Math.random() * 180, 0]] (SimpleMeshLayer). *)
Definition SimpleMeshLayer_getOrientation (d : JSValue) : JS JSValue :=
  r <- Math_random ;;
  Eff.ret (JSArray [JSNumber 0; JSNumber (r * 180); JSNumber 0]).

(** [getColor: d => [Math.sqrt(d.exits), 140, 0]] (SimpleMeshLayer). *)
Definition getColor `{Engine} (d : JSValue) : JS JSValue :=
  exits <- Get d "exits" ;;
  Eff.ret (JSArray [JSNumber (PrimFloat.sqrt (ToNumber exits)); JSNumber 140; JSNumber 0]).

(** ** The module body

    Values that appear in the module's own expressions: imported bindings
    used as values, string literals (template literals included, once their
    substitutions are evaluated), array literals and object literals. *)

Inductive ConfigValue : Type :=
| Binding (name : string)
| Str (s : string)
| Arr (elements : list ConfigValue)
| Obj (props : list (string * ConfigValue)).

(** The import declarations: binding and module specifier. *)
Definition imports : list (string * string) :=
  [ ("ScenegraphLayer", "@deck.gl/mesh-layers");
    ("SimpleMeshLayer", "@deck.gl/mesh-layers");
    ("registerLoaders", "@loaders.gl/core");
    ("GLTFLoader", "@loaders.gl/gltf");
    ("OBJLoader", "@loaders.gl/obj");
    ("makeLayerDemo", "./layer-demo");
    ("DATA_URI", "../constants/defaults") ].

Definition imported_from (specifier : string) : list string :=
  map fst (filter (fun i => String.eqb (snd i) specifier) imports).

(** What the module takes from [./layer-demo] and [../constants/defaults],
    neither of which is part of the embedded files: the demo factory, the
    type of what it returns, and the data URI prefix. *)
Class Harness : Type := {
  DATA_URI : string;
  Demo : Type;
  makeLayerDemo : ConfigValue -> Demo
}.

Definition getTooltip_source : string :=
  "({object}) => object && `${object.name}" ++ nl ++ "${object.address}`".

Definition ScenegraphLayerDemo_props `{Harness} : string :=
  "{" ++ nl ++
  "    data: '" ++ DATA_URI ++ "/bart-stations.json'," ++ nl ++
  "    pickable: true," ++ nl ++
  "    scenegraph: 'https://raw.githubusercontent.com/KhronosGroup/glTF-Sample-Models/master/2.0/BoxAnimated/glTF-Binary/BoxAnimated.glb'," ++ nl ++
  "    getPosition: d => d.coordinates," ++ nl ++
  "    getOrientation: d => [0, Math.random() * 180, 90]," ++ nl ++
  "    _animations: {" ++ nl ++
  "      '*': {speed: 5}" ++ nl ++
  "    }," ++ nl ++
  "    sizeScale: 500," ++ nl ++
  "    _lighting: 'pbr'" ++ nl ++
  "  }".

Definition SimpleMeshLayerDemo_props `{Harness} : string :=
  "{" ++ nl ++
  "    data: '" ++ DATA_URI ++ "/bart-stations.json'," ++ nl ++
  "    pickable: true," ++ nl ++
  "    mesh: '" ++ DATA_URI ++ "/humanoid_quad.obj'," ++ nl ++
  "    getPosition: d => d.coordinates," ++ nl ++
  "    getColor: d => [Math.sqrt(d.exits), 140, 0]," ++ nl ++
  "    getOrientation: d => [0, Math.random() * 180, 0]," ++ nl ++
  "    sizeScale: 30" ++ nl ++
  "  }".

(** The object literal passed to [makeLayerDemo] for [ScenegraphLayerDemo]. *)
Definition ScenegraphLayerDemo_config `{Harness} : ConfigValue :=
  Obj [ ("Layer", Binding "ScenegraphLayer");
        ("dependencies",
         Arr [Str "https://unpkg.com/@loaders.gl/gltf@latest/dist/dist.min.js"]);
        ("loaders", Arr [Str "GLTFLoader"]);
        ("getTooltip", Str getTooltip_source);
        ("props", Str ScenegraphLayerDemo_props) ].

(** The object literal passed to [makeLayerDemo] for [SimpleMeshLayerDemo]. *)
Definition SimpleMeshLayerDemo_config `{Harness} : ConfigValue :=
  Obj [ ("Layer", Binding "SimpleMeshLayer");
        ("dependencies",
         Arr [Str "https://unpkg.com/@loaders.gl/obj@latest/dist/dist.min.js"]);
        ("loaders", Arr [Str "OBJLoader"]);
        ("getTooltip", Str getTooltip_source);
        ("props", Str SimpleMeshLayerDemo_props) ].

Inductive Event : Type :=
| RegisterLoaders (loaders : list string)
| MakeLayerDemo (config : ConfigValue).

(** The state module evaluation works on: the global loader registry of
    [@loaders.gl/core], the calls made so far to the two imported
    functions (oldest first), and the module's exports. *)
Record ModuleState `{Harness} : Type := {
  loaderRegistry : list string;
  calls : list Event;
  exports : list (string * Demo)
}.

Definition Statement `{Harness} : Type := ModuleState -> ModuleState.

(** [registerLoaders] of [@loaders.gl/core], an external library: each
    loader that the registry does not hold yet is put at its front. *)
Definition register_all (loaders registry : list string) : list string :=
  fold_left
    (fun reg loader => if existsb (String.eqb loader) reg then reg else loader :: reg)
    loaders registry.

(** [registerLoaders([...]);] as a statement. *)
Definition registerLoaders `{Harness} (loaders : list string) : Statement :=
  fun s =>
    {| loaderRegistry := register_all loaders (loaderRegistry s);
       calls := (calls s ++ [RegisterLoaders loaders])%list;
       exports := exports s |}.

(** [export const name = makeLayerDemo(config);] *)
Definition export_const_makeLayerDemo `{Harness}
    (name : string) (config : ConfigValue) : Statement :=
  fun s =>
    {| loaderRegistry := loaderRegistry s;
       calls := (calls s ++ [MakeLayerDemo config])%list;
       exports := (exports s ++ [(name, makeLayerDemo config)])%list |}.

(** The statements of the module after its imports, in source order. *)
Definition module_body `{Harness} : list Statement :=
  [ registerLoaders ["GLTFLoader"; "OBJLoader"];
    export_const_makeLayerDemo "ScenegraphLayerDemo" ScenegraphLayerDemo_config;
    export_const_makeLayerDemo "SimpleMeshLayerDemo" SimpleMeshLayerDemo_config ].

(** The states evaluation passes through, the starting state first. *)
Fixpoint reached `{Harness} (body : list Statement) (s : ModuleState)
  : list ModuleState :=
  s :: match body with
       | [] => []
       | stmt :: rest => reached rest (stmt s)
       end.

Definition evaluate `{Harness} (body : list Statement) (s : ModuleState)
  : ModuleState :=
  fold_left (fun st stmt => stmt st) body s.

(** The module starts with whatever other modules registered before it
    and with nothing called or exported. *)
Definition initial_state `{Harness} (registry : list string) : ModuleState :=
  {| loaderRegistry := registry; calls := []; exports := [] |}.

(** Both loaders of the module are in the registry. *)
Definition loaders_registered `{Harness} (s : ModuleState) : Prop :=
  In "GLTFLoader" (loaderRegistry s) /\ In "OBJLoader" (loaderRegistry s).

Definition makeLayerDemo_configs (events : list Event) : list ConfigValue :=
  flat_map (fun e => match e with MakeLayerDemo c => [c] | _ => [] end) events.

(** ** The descriptor shape, in the specification's words

    "layer reference, list of script dependency URLs, list of loader
    names, a tooltip-function source string, a property-object source
    string": five fields and no other. *)

Fixpoint field (key : string) (props : list (string * ConfigValue))
  : option ConfigValue :=
  match props with
  | [] => None
  | (k, v) :: rest => if String.eqb k key then Some v else field key rest
  end.












(** ** Evaluating an accessor twice *)

(** The two results of calling [f] on [d], and then on [d] again in the
    state the first call left. *)
Definition twice {A} (f : JSValue -> JS A) (d : JSValue) (w : World)
  : Eff.Outcome JSError A * Eff.Outcome JSError A :=
  let (first, w') := f d w in
  let (second, _) := f d w' in
  (first, second).

Definition repeatable {A} (f : JSValue -> JS A) : Prop :=
  forall d w, fst (twice f d w) = snd (twice f d w).

Definition layer_of (config : ConfigValue) : option ConfigValue :=
  match config with
  | Obj props => field "Layer" props
  | _ => None
  end.

(** The second component of an orientation triple, as a test that tells
    45 from 90. *)
Definition second_below_fifty (o : Eff.Outcome JSError JSValue) : bool :=
  match o with
  | Ok (JSArray (_ :: JSNumber y :: _)) => PrimFloat.ltb y 50
  | _ => false
  end.

(** ** Concrete inputs *)

(** A row in the format of [bart-stations.json]. *)
Definition station : JSValue :=
  JSObject [ ("name", JSString "Lafayette (LAFY)");
             ("code", JSString "LF");
             ("address", JSString "3601 Deer Hill Road, Lafayette CA 94549");
             ("entries", JSString "3481");
             ("exits", JSString "3616");
             ("coordinates", JSArray [JSNumber (-122.123801); JSNumber 37.893394]) ].

(** A world in which [Math.random()] gives 0.25 first and 0.5 from then on. *)
Definition quarter_then_half : World :=
  {| random_sequence := fun n => match n with O => 0.25%float | S _ => 0.5%float end;
     random_drawn := 0;
     property_reads := [] |}.

(** An engine for concrete runs; the rows used there hold no number to
    print, and the only string converted to a number is ["3616"]. *)
Definition sample_engine : Engine :=
  {| Number_toString := fun _ => "NaN";
     String_toNumber := fun s => if String.eqb s "3616" then 3616%float else nan |}.

(** A harness that returns the descriptor it is given. *)
Definition sample_harness : Harness :=
  {| DATA_URI := "https://raw.githubusercontent.com/visgl/deck.gl-data/master/website";
     Demo := ConfigValue;
     makeLayerDemo := fun config => config |}.

End MeshLayers.

(** * Part II: [bindings/pydeck/examples/07 - Binary Transport.ipynb] *)

Module BinaryTransport.

(** ** Python values and the DataFrame *)

Inductive PyVal : Type :=
| PyNone
| PyBool (b : bool)
| PyInt (z : Z)
| PyFloat (x : float)
| PyStr (s : string)
| PyList (items : list PyVal).

Inductive PyError : Type :=
| KeyError (key : string)
| NameError (name : string)
| PyTypeError
| ValueError
| ZeroDivisionError
| OverflowError.

Definition Py (A : Type) : Type := Eff.Outcome PyError A.

Definition Series : Type := list PyVal.

(** A pandas DataFrame: the length of its index and its columns in
    order, each a label with the values down the rows. *)
Record DataFrame : Type := {
  index_len : nat;
  columns : list (string * Series)
}.

Definition column_names (df : DataFrame) : list string :=
  map fst (columns df).

Fixpoint find_column (name : string) (cols : list (string * Series))
  : option Series :=
  match cols with
  | [] => None
  | (k, values) :: rest =>
      if String.eqb k name then Some values else find_column name rest
  end.

(** [df[name]] *)
Definition df_getitem (df : DataFrame) (name : string) : Py Series :=
  match find_column name (columns df) with
  | Some values => Ok values
  | None => Throw (KeyError name)
  end.

(** [df[name] = series]: an existing column is overwritten in place, a
    new one is added after the last; the lengths must agree. *)
Definition df_setitem (df : DataFrame) (name : string) (series : Series)
  : Py DataFrame :=
  if negb (Nat.eqb (length series) (index_len df)) then Throw ValueError
  else
    match find_column name (columns df) with
    | Some _ =>
        Ok {| index_len := index_len df;
              columns :=
                map (fun c => if String.eqb (fst c) name then (fst c, series) else c)
                    (columns df) |}
    | None =>
        Ok {| index_len := index_len df;
              columns := (columns df ++ [(name, series)])%list |}
    end.

(** The columns whose label is not [name]. *)
Definition without (name : string) (cols : list (string * Series))
  : list (string * Series) :=
  filter (fun c => negb (String.eqb (fst c) name)) cols.

(** [del df[name]] *)
Definition df_delitem (df : DataFrame) (name : string) : Py DataFrame :=
  match find_column name (columns df) with
  | Some _ =>
      Ok {| index_len := index_len df;
            columns := without name (columns df) |}
  | None => Throw (KeyError name)
  end.

(** The row at position [i], as [apply(..., axis=1)] hands it to its
    function: the column labels with this row's values. *)
Definition Row : Type := list (string * PyVal).

Definition row_at (df : DataFrame) (i : nat) : Row :=
  map (fun c => (fst c, nth i (snd c) PyNone)) (columns df).

(** [row[name]] *)
Fixpoint row_getitem (row : Row) (name : string) : Py PyVal :=
  match row with
  | [] => Throw (KeyError name)
  | (k, v) :: rest => if String.eqb k name then Ok v else row_getitem rest name
  end.

(** [df.apply(f, axis=1)] for an [f] that returns lists, on a frame with
    at least one row: the Series of the results, row by row.  What pandas
    does with a frame that has no row differs between its versions and is
    not described here; the properties below are about frames with rows. *)
Definition df_apply_rows (df : DataFrame) (f : Row -> Py PyVal) : Py Series :=
  Eff.traverse (fun i => f (row_at df i)) (seq 0 (index_len df)).

(** Iteration, as a comprehension does it: over the items of a list or
    the characters of a string; other values here are not iterable. *)
Definition py_iter (v : PyVal) : Py (list PyVal) :=
  match v with
  | PyList items => Ok items
  | PyStr s => Ok (map (fun c => PyStr (String c EmptyString)) (list_ascii_of_string s))
  | _ => Throw PyTypeError
  end.

(** A binary64 result computed by exact rounding: finite values and
    zeros are floats, an infinity means the exact value is out of range,
    which is an [OverflowError]. *)
Definition float_in_range (rounded : spec_float) : Py float :=
  match rounded with
  | S754_infinity _ => Throw OverflowError
  | _ => Ok (SF2Prim rounded)
  end.

(** [float(z)] for an integer of any size: the nearest float, ties to
    even, or an [OverflowError]. *)
Definition float_of_int (z : Z) : Py float :=
  float_in_range (binary_normalize prec emax z 0 false).

(** [a / b] on integers of any size: the exact quotient rounded once to
    the nearest float, ties to even; a zero divisor and a quotient out of
    range are errors, a zero dividend takes the sign of the quotient. *)
Definition int_truediv (a b : Z) : Py float :=
  let negative := xorb (Z.ltb a 0) (Z.ltb b 0) in
  match b, a with
  | Z0, _ => Throw ZeroDivisionError
  | _, Z0 => Ok (if negative then (-0)%float else 0%float)
  | _, _ =>
      let '(q, e, loc) := SFdiv_core_binary prec emax (Z.abs a) 0 (Z.abs b) 0 in
      float_in_range (binary_round_aux prec emax negative q e loc)
  end.

(** The numbers: integers, which include the two booleans, and floats. *)
Inductive Number : Type :=
| Integer (z : Z)
| Floating (x : float).

Definition as_number (v : PyVal) : option Number :=
  match v with
  | PyBool true => Some (Integer 1)
  | PyBool false => Some (Integer 0)
  | PyInt z => Some (Integer z)
  | PyFloat x => Some (Floating x)
  | _ => None
  end.

Definition to_float (n : Number) : Py float :=
  match n with
  | Integer z => float_of_int z
  | Floating x => Ok x
  end.

(** True division [a / b].  Two integers are divided exactly; otherwise
    both operands are converted to floats first and divided as floats,
    where only a zero divisor is an error. *)
Definition py_truediv (a b : PyVal) : Py PyVal :=
  match as_number a, as_number b with
  | Some (Integer x), Some (Integer y) =>
      q <~ int_truediv x y ;; Ok (PyFloat q)
  | Some x, Some y =>
      x' <~ to_float x ;;
      y' <~ to_float y ;;
      if PrimFloat.eqb y' 0 then Throw ZeroDivisionError
      else Ok (PyFloat (PrimFloat.div x' y'))
  | _, _ => Throw PyTypeError
  end.

(** ** The binding and the kernel *)

(** An argument of a call to pydeck: a plain value, a DataFrame, or
    objects that earlier calls returned, named by their handles. *)
Inductive Arg : Type :=
| AVal (v : PyVal)
| AFrame (df : DataFrame)
| ARef (handle : nat)
| ARefs (handles : list nat).

Record Call : Type := {
  callee : string;
  positional : list Arg;
  keywords : list (string * Arg)
}.

(** What lies outside the notebook: the frame [pd.read_csv] returns for a
    URL, and [pdk.data_utils.assign_random_colors], whose returned dict
    is represented by its [get] method. *)
Class Outside : Type := {
  read_csv : string -> DataFrame;
  assign_random_colors : Series -> PyVal -> PyVal
}.

(** The kernel's state: the variable [nodes], unbound at first, and the
    calls made to pydeck so far, oldest first. *)
Record Kernel : Type := {
  nodes : option DataFrame;
  pdk_calls : list Call
}.

Definition NB (A : Type) : Type := Eff.M Kernel PyError A.

Definition fresh_kernel : Kernel := {| nodes := None; pdk_calls := [] |}.

Definition get_nodes : NB DataFrame :=
  fun k =>
    match nodes k with
    | Some df => (Ok df, k)
    | None => (Throw (NameError "nodes"), k)
    end.

Definition set_nodes (df : DataFrame) : NB unit :=
  Eff.modify (fun k => {| nodes := Some df; pdk_calls := pdk_calls k |}).

(** A call into pydeck: logged, and answered with the handle of the
    object it returns (its position in the log). *)
Definition pdk (name : string) (args : list Arg) (kwargs : list (string * Arg))
  : NB nat :=
  fun k =>
    (Ok (length (pdk_calls k)),
     {| nodes := nodes k;
        pdk_calls :=
          (pdk_calls k
           ++ [{| callee := name; positional := args; keywords := kwargs |}])%list |}).

(** Statements on the frame bound to [nodes], which they change in place. *)
Definition nodes_setitem (name : string) (series : Series) : NB unit :=
  df <- get_nodes ;;
  df' <- Eff.lift (df_setitem df name series) ;;
  set_nodes df'.

Definition nodes_delitem (name : string) : NB unit :=
  df <- get_nodes ;;
  df' <- Eff.lift (df_delitem df name) ;;
  set_nodes df'.

Definition nodes_apply (f : Row -> Py PyVal) : NB Series :=
  df <- get_nodes ;;
  Eff.lift (df_apply_rows df f).

Definition nodes_getitem (name : string) : NB Series :=
  df <- get_nodes ;;
  Eff.lift (df_getitem df name).

(** ** The code cells *)

Definition NODES_URL : string :=
  "https://raw.githubusercontent.com/ajduberstein/geo_datasets/master/social_nodes.csv".

(** The column labels [generate_graph_data] gives the frame it builds;
    the function documents how the CSV was made and is never called. *)
Definition generate_graph_data_columns : list string :=
  ["x"; "y"; "z"; "group"].

(** [nodes = pd.read_csv(NODES_URL)] *)
Definition cell_read `{Outside} : NB unit :=
  set_nodes (read_csv NODES_URL).

(** [lambda row: [row["x"], row["y"], row["z"]]] *)
Definition position_of_row (row : Row) : Py PyVal :=
  x <~ row_getitem row "x" ;;
  y <~ row_getitem row "y" ;;
  z <~ row_getitem row "z" ;;
  Ok (PyList [x; y; z]).

(** The cell that nests the position and deletes [x], [y] and [z]. *)
Definition cell_position : NB unit :=
  position <- nodes_apply position_of_row ;;
  nodes_setitem "position" position ;;;
  nodes_delitem "x" ;;;
  nodes_delitem "y" ;;;
  nodes_delitem "z".

(** [lambda row: [c / 255 for c in colors.get(row["group"])]] *)
Definition color_of_row (colors_get : PyVal -> PyVal) (row : Row) : Py PyVal :=
  group <~ row_getitem row "group" ;;
  components <~ py_iter (colors_get group) ;;
  normalized <~ Eff.traverse (fun c => py_truediv c (PyInt 255)) components ;;
  Ok (PyList normalized).

(** The cell that assigns the colours and deletes [group]. *)
Definition cell_color `{Outside} : NB unit :=
  group <- nodes_getitem "group" ;;
  _ <- pdk "data_utils.assign_random_colors" [AVal (PyList group)] [] ;;
  let colors_get := assign_random_colors group in
  color <- nodes_apply (color_of_row colors_get) ;;
  nodes_setitem "color" color ;;;
  nodes_delitem "group".

Definition ViewState_kwargs : list (string * Arg) :=
  [ ("offset", AVal (PyList [PyInt 0; PyInt 0]));
    ("latitude", AVal PyNone);
    ("longitude", AVal PyNone);
    ("bearing", AVal PyNone);
    ("pitch", AVal PyNone);
    ("zoom", AVal (PyInt 10)) ].

Definition Layer_kwargs : list (string * Arg) :=
  [ ("id", AVal (PyStr "binary-points"));
    ("use_binary_transport", AVal (PyBool true));
    ("get_position", AVal (PyStr "position"));
    ("get_normal", AVal (PyList [PyInt 10; PyInt 100; PyInt 10]));
    ("get_color", AVal (PyStr "color"));
    ("pickable", AVal (PyBool true));
    ("auto_highlight", AVal (PyBool true));
    ("highlight_color", AVal (PyList [PyInt 255; PyInt 255; PyInt 0]));
    ("radius", AVal (PyInt 50)) ].

(** The last code cell: view state, views, layer, deck, [show()]. *)
Definition cell_deck : NB unit :=
  view_state <- pdk "ViewState" [] ViewState_kwargs ;;
  view <- pdk "View" [] [("type", AVal (PyStr "OrbitView"));
                          ("controller", AVal (PyBool true))] ;;
  let views := [view] in
  data <- get_nodes ;;
  nodes_layer <- pdk "Layer" [AVal (PyStr "PointCloudLayer"); AFrame data] Layer_kwargs ;;
  deck <- pdk "Deck" [] [("layers", ARefs [nodes_layer]);
                          ("initial_view_state", ARef view_state);
                          ("views", ARefs views);
                          ("map_provider", AVal PyNone)] ;;
  _ <- pdk "Deck.show" [ARef deck] [] ;;
  Eff.ret tt.

(** The code cells in order.  The first one only imports and defines. *)
Definition notebook `{Outside} : NB unit :=
  cell_read ;;;
  cell_position ;;;
  cell_color ;;;
  cell_deck.

Definition run `{Outside} : Eff.Outcome PyError unit * Kernel :=
  notebook fresh_kernel.

(** ** What the notebook expects of its input, and what it builds *)

Definition column_values (df : DataFrame) (name : string) : Series :=
  match find_column name (columns df) with
  | Some values => values
  | None => []
  end.

Definition value_at (df : DataFrame) (name : string) (i : nat) : PyVal :=
  nth i (column_values df name) PyNone.

(** The two lists hold the same labels. *)
Definition same_labels (names expected : list string) : bool :=
  forallb (fun n => existsb (String.eqb n) expected) names
  && forallb (fun n => existsb (String.eqb n) names) expected.

(** A value on which [c / 255] returns: a float, a boolean, or an integer
    whose quotient by 255 is in the range of the floats. *)
Definition is_number (v : PyVal) : bool :=
  Eff.is_ok (py_truediv v (PyInt 255)).

(** A value the comprehension of [color_of_row] runs through without
    error: an iterable of numbers. *)
Definition colourable (v : PyVal) : bool :=
  match py_iter v with
  | Ok components => forallb is_number components
  | Throw _ => false
  end.

(** Every row's group has a colourable entry in the colour dict. *)
Definition colors_cover (df : DataFrame) (colors_get : PyVal -> PyVal) : bool :=
  forallb (fun i => colourable (colors_get (value_at df "group" i)))
          (seq 0 (index_len df)).



(** The nested position column: row by row the list of the three
    coordinates. *)
Definition position_column (df : DataFrame) : Series :=
  map (fun i => PyList [value_at df "x" i; value_at df "y" i; value_at df "z" i])
      (seq 0 (index_len df)).

Definition transformed (df : DataFrame) (color : Series) : DataFrame :=
  {| index_len := index_len df;
     columns := [("position", position_column df); ("color", color)] |}.

(** The calls of a complete run, given the group column and the frame
    handed to the layer. *)
Definition complete_calls (group : Series) (data : DataFrame) : list Call :=
  [ {| callee := "data_utils.assign_random_colors";
       positional := [AVal (PyList group)]; keywords := [] |};
    {| callee := "ViewState"; positional := []; keywords := ViewState_kwargs |};
    {| callee := "View"; positional := [];
       keywords := [("type", AVal (PyStr "OrbitView"));
                    ("controller", AVal (PyBool true))] |};
    {| callee := "Layer";
       positional := [AVal (PyStr "PointCloudLayer"); AFrame data];
       keywords := Layer_kwargs |};
    {| callee := "Deck"; positional := [];
       keywords := [("layers", ARefs [3]);
                    ("initial_view_state", ARef 1);
                    ("views", ARefs [2]);
                    ("map_provider", AVal PyNone)] |};
    {| callee := "Deck.show"; positional := [ARef 4]; keywords := [] |} ].

Fixpoint keyword (name : string) (kwargs : list (string * Arg)) : option Arg :=
  match kwargs with
  | [] => None
  | (k, a) :: rest => if String.eqb k name then Some a else keyword name rest
  end.

Definition calls_to (name : string) (log : list Call) : list Call :=
  filter (fun c => String.eqb (callee c) name) log.

(** ** Concrete inputs *)

(** A CSV of two nodes in the format [generate_graph_data] produces. *)
Definition two_nodes : DataFrame :=
  {| index_len := 2;
     columns :=
       [ ("x", [PyFloat 0.5; PyFloat (-0.25)]);
         ("y", [PyFloat 0.125; PyFloat 0.75]);
         ("z", [PyFloat (-1); PyFloat 0]);
         ("group", [PyStr "T"; PyStr "C"]) ] |}.


Definition two_colors (group : Series) (key : PyVal) : PyVal :=
  match key with
  | PyStr "T" => PyList [PyInt 255; PyInt 0; PyInt 51]
  | PyStr "C" => PyList [PyInt 0; PyInt 102; PyInt 255]
  | _ => PyNone
  end.

Definition sample_outside : Outside :=
  {| read_csv := fun _ => two_nodes; assign_random_colors := two_colors |}.


(** ** Colour components *)

(** An integer from 0 to 255. *)
Definition byte_component (v : PyVal) : bool :=
  match v with
  | PyInt z => (0 <=? z)%Z && (z <=? 255)%Z
  | _ => false
  end.

(** A float from 0 to 1. *)
Definition unit_interval (v : PyVal) : bool :=
  match v with
  | PyFloat q => PrimFloat.leb 0 q && PrimFloat.leb q 1
  | _ => false
  end.

(** [c / 255] gives a float from 0 to 1. *)
Definition normalizes (c : PyVal) : bool :=
  match py_truediv c (PyInt 255) with
  | Ok q => unit_interval q
  | Throw _ => false
  end.

(** The frame after the position cell: [x], [y] and [z] deleted, the
    nested [position] added last. *)
Definition positioned (df : DataFrame) : DataFrame :=
  {| index_len := index_len df;
     columns :=
       (without "z" (without "y" (without "x" (columns df)))
        ++ [("position", position_column df)])%list |}.

(** The [Layer] call on a frame. *)
Definition layer_call (data : DataFrame) : Call :=
  {| callee := "Layer";
     positional := [AVal (PyStr "PointCloudLayer"); AFrame data];
     keywords := Layer_kwargs |}.

(** ** More concrete inputs *)

(** A CSV written with its index, which comes back as a fifth column. *)
Definition two_nodes_with_index : DataFrame :=
  {| index_len := 2;
     columns := ("Unnamed: 0", [PyInt 0; PyInt 1]) :: columns two_nodes |}.

Definition outside_with_index : Outside :=
  {| read_csv := fun _ => two_nodes_with_index; assign_random_colors := two_colors |}.

(** A CSV of positions only. *)
Definition no_group : DataFrame :=
  {| index_len := 1;
     columns := [ ("x", [PyFloat 0.5]); ("y", [PyFloat 0.125]); ("z", [PyFloat 0]) ] |}.

Definition outside_without_group : Outside :=
  {| read_csv := fun _ => no_group; assign_random_colors := two_colors |}.

(** A colour dict that knows no group. *)
Definition outside_without_colors : Outside :=
  {| read_csv := fun _ => two_nodes; assign_random_colors := fun _ _ => PyNone |}.

End BinaryTransport.

(** * Properties of the demo module *)

Module MeshLayersFacts.

Import MeshLayers.

(** ** The tooltip function and the accessors *)

Lemma Get_nullish (v : JSValue) (p : string) (w : World) :
  nullish v = true -> Get v p w = (Throw TypeError, w).
Proof.
  intros Hv. unfold Get. rewrite Hv. reflexivity.
Qed.

Lemma Get_value (v : JSValue) (p : string) (w : World) :
  nullish v = false -> Get v p w = (Ok (property_value v p), record_read v p w).
Proof.
  intros Hv. unfold Get. rewrite Hv. reflexivity.
Qed.

Lemma truthy_not_nullish (v : JSValue) : ToBoolean v = true -> nullish v = false.
Proof.
  destruct v; simpl; intros Hv; congruence.
Qed.

Lemma tooltip_template_truthy `{Engine} (object : JSValue) (w : World) :
  ToBoolean object = true ->
  tooltip_template object w =
    (Ok (JSString (ToString (property_value object "name") ++ nl
                   ++ ToString (property_value object "address"))),
     record_read object "address" (record_read object "name" w)).
Proof.
  intros Hobject. apply truthy_not_nullish in Hobject.
  unfold tooltip_template, Eff.bind.
  rewrite (Get_value object "name" w Hobject).
  rewrite (Get_value object "address" _ Hobject).
  reflexivity.
Qed.

Lemma getTooltip_falsy `{Engine} (info : JSValue) (w : World) :
  nullish info = false ->
  ToBoolean (property_value info "object") = false ->
  getTooltip info w = (Ok (property_value info "object"), record_read info "object" w).
Proof.
  intros Hinfo Hfalsy. unfold getTooltip, Eff.bind.
  rewrite (Get_value info "object" w Hinfo), Hfalsy. reflexivity.
Qed.

Lemma getTooltip_truthy `{Engine} (info : JSValue) (w : World) :
  nullish info = false ->
  ToBoolean (property_value info "object") = true ->
  getTooltip info w =
    tooltip_template (property_value info "object") (record_read info "object" w).
Proof.
  intros Hinfo Htruthy. unfold getTooltip, Eff.bind.
  rewrite (Get_value info "object" w Hinfo), Htruthy. reflexivity.
Qed.

Lemma getTooltip_nullish_argument `{Engine} (info : JSValue) (w : World) :
  nullish info = true -> getTooltip info w = (Throw TypeError, w).
Proof.
  intros Hinfo. unfold getTooltip, Eff.bind.
  rewrite (Get_nullish info "object" w Hinfo). reflexivity.
Qed.


(** The outcome of an accessor that only reads a property of its
    argument does not depend on the state it runs in. *)
Lemma Get_outcome_stateless (v : JSValue) (p : string) (w w' : World) :
  fst (Get v p w) = fst (Get v p w').
Proof.
  unfold Get. destruct (nullish v); reflexivity.
Qed.

Lemma getPosition_repeatable : repeatable getPosition.
Proof.
  intros d w. unfold twice, getPosition.
  pose proof (Get_outcome_stateless d "coordinates" w) as Hsame.
  destruct (Get d "coordinates" w) as [first w1].
  specialize (Hsame w1).
  destruct (Get d "coordinates" w1) as [second w2].
  exact Hsame.
Qed.

Lemma getColor_outcome_stateless `{Engine} (d : JSValue) (w w' : World) :
  fst (getColor d w) = fst (getColor d w').
Proof.
  unfold getColor, Eff.bind, Get.
  destruct (nullish d); reflexivity.
Qed.

Lemma getColor_repeatable `{Engine} : repeatable getColor.
Proof.
  intros d w. unfold twice.
  pose proof (getColor_outcome_stateless d w) as Hsame.
  destruct (getColor d w) as [first w1].
  specialize (Hsame w1).
  destruct (getColor d w1) as [second w2].
  exact Hsame.
Qed.

(** C2, as stated, fails: with [Math.random()] giving 0.25 and then 0.5,
    two invocations of the ScenegraphLayer demo's [getOrientation] on the
    same station return [[0, 45, 90]] and then [[0, 90, 90]]. *)
Lemma C2_getOrientation_differs :
  fst (twice ScenegraphLayer_getOrientation station quarter_then_half)
  <> snd (twice ScenegraphLayer_getOrientation station quarter_then_half).
Proof.
  intros Hsame.
  apply (f_equal second_below_fifty) in Hsame.
  vm_compute in Hsame. discriminate Hsame.
Qed.

(** C2, amended: [getPosition] and [getColor] give the same result when
    evaluated twice on the same datum.  [getOrientation] returns, for every
    datum, the triple [[0, r * 180, 90]] (ScenegraphLayer) or
    [[0, r * 180, 0]] (SimpleMeshLayer), where [r] is the value that this
    invocation draws from [Math.random()]; each invocation draws a new one. *)
Theorem C2_accessors `{Engine} :
  repeatable getPosition
  /\ repeatable getColor
  /\ (forall d w,
        ScenegraphLayer_getOrientation d w =
          (Ok (JSArray [JSNumber 0;
                        JSNumber (random_sequence w (random_drawn w) * 180);
                        JSNumber 90]),
           {| random_sequence := random_sequence w;
              random_drawn := S (random_drawn w);
              property_reads := property_reads w |}))
  /\ (forall d w,
        SimpleMeshLayer_getOrientation d w =
          (Ok (JSArray [JSNumber 0;
                        JSNumber (random_sequence w (random_drawn w) * 180);
                        JSNumber 0]),
           {| random_sequence := random_sequence w;
              random_drawn := S (random_drawn w);
              property_reads := property_reads w |})).
Proof.
  split; [exact getPosition_repeatable|].
  split; [exact getColor_repeatable|].
  split; intros d w; reflexivity.
Qed.



(** ** Module evaluation *)

Lemma register_all_keeps (loaders registry : list string) (name : string) :
  In name registry -> In name (register_all loaders registry).
Proof.
  revert registry. unfold register_all.
  induction loaders as [|loader rest IH]; intros registry Hin; simpl.
  - exact Hin.
  - apply IH. destruct (existsb (String.eqb loader) registry).
    + exact Hin.
    + right. exact Hin.
Qed.

Lemma register_all_adds (loaders registry : list string) (name : string) :
  In name loaders -> In name (register_all loaders registry).
Proof.
  revert registry.
  induction loaders as [|loader rest IH]; intros registry Hin.
  - contradiction.
  - destruct Hin as [Hhere | Hlater].
    + subst loader. unfold register_all. simpl.
      apply (register_all_keeps rest).
      destruct (existsb (String.eqb name) registry) eqn:Hfound.
      * apply existsb_exists in Hfound. destruct Hfound as [x [Hx Heq]].
        apply String.eqb_eq in Heq. subst x. exact Hx.
      * left. reflexivity.
    + unfold register_all. simpl. apply IH. exact Hlater.
Qed.

(** A property that holds at the start and that every statement of the
    body preserves holds in every state evaluation passes through. *)
Lemma reached_invariant `{Harness} (P : ModuleState -> Prop) (body : list Statement) :
  (forall stmt s, In stmt body -> P s -> P (stmt s)) ->
  forall s, P s -> forall s', In s' (reached body s) -> P s'.
Proof.
  induction body as [|stmt rest IH]; intros Hstep s Hs s' Hin.
  - simpl in Hin. destruct Hin as [<- | []]. exact Hs.
  - simpl in Hin. destruct Hin as [<- | Hin].
    + exact Hs.
    + apply (IH (fun st s0 Hst => Hstep st s0 (or_intror Hst)) (stmt s)).
      * apply Hstep; [left; reflexivity | exact Hs].
      * exact Hin.
Qed.





(** C6: the bindings imported from [@deck.gl/mesh-layers] are
    [ScenegraphLayer] and [SimpleMeshLayer]; the module exports exactly
    [ScenegraphLayerDemo] and [SimpleMeshLayerDemo], each the result of
    [makeLayerDemo] on its descriptor, and the [Layer] fields of the
    descriptors are those two bindings, one each. *)
Theorem C6_one_demo_per_layer `{Harness} (registry : list string) :
  let final := evaluate module_body (initial_state registry) in
  imported_from "@deck.gl/mesh-layers" = ["ScenegraphLayer"; "SimpleMeshLayer"]
  /\ exports final =
       [ ("ScenegraphLayerDemo", makeLayerDemo ScenegraphLayerDemo_config);
         ("SimpleMeshLayerDemo", makeLayerDemo SimpleMeshLayerDemo_config) ]
  /\ map layer_of (makeLayerDemo_configs (calls final)) =
       map (fun name => Some (Binding name)) (imported_from "@deck.gl/mesh-layers").
Proof.
  intros final. split; [reflexivity|]. split; reflexivity.
Qed.

(** C10: the calls of module evaluation are [registerLoaders] with
    [GLTFLoader] and [OBJLoader] first and the two [makeLayerDemo] calls
    after it, and in every state evaluation passes through in which a demo
    exists, both loaders are in the registry. *)
Theorem C10_loaders_before_demos `{Harness}
    (registry : list string) (s : ModuleState) :
  In s (reached module_body (initial_state registry)) ->
  calls (evaluate module_body (initial_state registry)) =
    [ RegisterLoaders ["GLTFLoader"; "OBJLoader"];
      MakeLayerDemo ScenegraphLayerDemo_config;
      MakeLayerDemo SimpleMeshLayerDemo_config ]
  /\ (exports s <> [] -> loaders_registered s).
Proof.
  intros Hreached. split; [reflexivity|].
  unfold module_body in Hreached. simpl reached in Hreached.
  destruct Hreached as [<- | Hafter].
  - intros Hexports. exfalso. apply Hexports. reflexivity.
  - intros _.
    set (registered := registerLoaders ["GLTFLoader"; "OBJLoader"] (initial_state registry)).
    assert (Hregistered : loaders_registered registered).
    { split; apply register_all_adds; simpl; auto. }
    apply (reached_invariant loaders_registered
             [ export_const_makeLayerDemo "ScenegraphLayerDemo" ScenegraphLayerDemo_config;
               export_const_makeLayerDemo "SimpleMeshLayerDemo" SimpleMeshLayerDemo_config ])
      with (s := registered).
    + intros stmt s0 Hstmt Hs0.
      destruct Hstmt as [<- | [<- | []]]; exact Hs0.
    + exact Hregistered.
    + exact Hafter.
Qed.

Lemma C10_loaders_before_demos_witness :
  loaders_registered (@evaluate sample_harness module_body (initial_state [])).
Proof.
  apply (@C10_loaders_before_demos sample_harness []
           (@evaluate sample_harness module_body (initial_state []))).
  - simpl. right. right. right. left. reflexivity.
  - discriminate.
Defined.

End MeshLayersFacts.

(** * Properties of the notebook *)

Module BinaryTransportFacts.

Import BinaryTransport.

(** ** Columns *)

Lemma find_column_app (name : string) (front back : list (string * Series)) :
  find_column name (front ++ back)%list =
    match find_column name front with
    | Some values => Some values
    | None => find_column name back
    end.
Proof.
  induction front as [|[k values] rest IH]; simpl.
  - reflexivity.
  - destruct (String.eqb k name); [reflexivity | exact IH].
Qed.

Lemma find_column_absent (name : string) (cols : list (string * Series)) :
  ~ In name (map fst cols) -> find_column name cols = None.
Proof.
  induction cols as [|[k values] rest IH]; simpl; intros Hout.
  - reflexivity.
  - destruct (String.eqb_spec k name) as [Heq | Hne].
    + exfalso. apply Hout. left. exact Heq.
    + apply IH. intros Hin. apply Hout. right. exact Hin.
Qed.

Lemma find_column_present (name : string) (cols : list (string * Series)) :
  In name (map fst cols) -> exists values, find_column name cols = Some values.
Proof.
  induction cols as [|[k values] rest IH]; simpl; intros Hin.
  - contradiction.
  - destruct (String.eqb_spec k name) as [Heq | Hne].
    + exists values. reflexivity.
    + destruct Hin as [Hhere | Hlater]; [contradiction | exact (IH Hlater)].
Qed.

Lemma find_column_without (name removed : string) (cols : list (string * Series)) :
  name <> removed ->
  find_column name (without removed cols) = find_column name cols.
Proof.
  intros Hne. induction cols as [|[k values] rest IH]; simpl.
  - reflexivity.
  - destruct (String.eqb_spec k removed) as [Hk | Hk]; simpl.
    + subst k. destruct (String.eqb_spec removed name) as [Heq | _].
      * exfalso. apply Hne. symmetry. exact Heq.
      * exact IH.
    + destruct (String.eqb k name); [reflexivity | exact IH].
Qed.

Lemma without_app (name : string) (front back : list (string * Series)) :
  without name (front ++ back)%list = (without name front ++ without name back)%list.
Proof.
  unfold without. apply filter_app.
Qed.

(** Deleting the four generated columns leaves nothing of a frame that
    has no other column. *)
Lemma without_generated (cols : list (string * Series)) :
  (forall name, In name (map fst cols) -> In name generate_graph_data_columns) ->
  without "group" (without "z" (without "y" (without "x" cols))) = [].
Proof.
  induction cols as [|[k values] rest IH]; intros Hall.
  - reflexivity.
  - assert (Hk : In k generate_graph_data_columns) by (apply Hall; left; reflexivity).
    assert (Hrest : without "group" (without "z" (without "y" (without "x" rest))) = [])
      by (apply IH; intros name Hin; apply Hall; right; exact Hin).
    simpl in Hk.
    destruct Hk as [<- | [<- | [<- | [<- | []]]]]; simpl; exact Hrest.
Qed.

Lemma df_delitem_present (df : DataFrame) (name : string) (values : Series) :
  find_column name (columns df) = Some values ->
  df_delitem df name =
    Ok {| index_len := index_len df; columns := without name (columns df) |}.
Proof.
  intros Hfound. unfold df_delitem. rewrite Hfound. reflexivity.
Qed.

Lemma df_setitem_new (df : DataFrame) (name : string) (series : Series) :
  length series = index_len df ->
  find_column name (columns df) = None ->
  df_setitem df name series =
    Ok {| index_len := index_len df;
          columns := (columns df ++ [(name, series)])%list |}.
Proof.
  intros Hlen Hnew. unfold df_setitem.
  rewrite Hlen, Nat.eqb_refl, Hnew. reflexivity.
Qed.

(** ** Rows *)

Lemma row_getitem_row_at (df : DataFrame) (i : nat) (name : string) :
  row_getitem (row_at df i) name =
    match find_column name (columns df) with
    | Some values => Ok (nth i values PyNone)
    | None => Throw (KeyError name)
    end.
Proof.
  unfold row_at. induction (columns df) as [|[k values] rest IH]; simpl.
  - reflexivity.
  - destruct (String.eqb k name); [reflexivity | exact IH].
Qed.

Lemma traverse_map {E A B} (f : A -> Eff.Outcome E B) (g : A -> B) (l : list A) :
  (forall a, In a l -> f a = Ok (g a)) -> Eff.traverse f l = Ok (map g l).
Proof.
  induction l as [|a rest IH]; intros Hall; simpl.
  - reflexivity.
  - rewrite (Hall a (or_introl eq_refl)). simpl.
    rewrite IH; [reflexivity|].
    intros b Hb. apply Hall. right. exact Hb.
Qed.

Lemma traverse_succeeds {E A B} (f : A -> Eff.Outcome E B) (l : list A) :
  (forall a, In a l -> exists b, f a = Ok b) ->
  exists bs, Eff.traverse f l = Ok bs /\ length bs = length l.
Proof.
  induction l as [|a rest IH]; intros Hall; simpl.
  - exists []. split; reflexivity.
  - destruct (Hall a (or_introl eq_refl)) as [b Hb].
    destruct IH as [bs [Hbs Hlen]].
    { intros c Hc. apply Hall. right. exact Hc. }
    exists (b :: bs). rewrite Hb. simpl. rewrite Hbs. simpl.
    split; [reflexivity | rewrite Hlen; reflexivity].
Qed.

Lemma traverse_fails_first {E A B} (f : A -> Eff.Outcome E B) (a : A) (rest : list A) (e : E) :
  f a = Throw e -> Eff.traverse f (a :: rest) = Throw e.
Proof.
  intros Hfail. simpl. rewrite Hfail. reflexivity.
Qed.

Lemma position_of_row_at (df : DataFrame) (i : nat) (xs ys zs : Series) :
  find_column "x" (columns df) = Some xs ->
  find_column "y" (columns df) = Some ys ->
  find_column "z" (columns df) = Some zs ->
  position_of_row (row_at df i) =
    Ok (PyList [value_at df "x" i; value_at df "y" i; value_at df "z" i]).
Proof.
  intros Hx Hy Hz. unfold position_of_row, value_at, column_values.
  rewrite !row_getitem_row_at, Hx, Hy, Hz. reflexivity.
Qed.

Lemma divide_by_255 (c : PyVal) :
  is_number c = true -> exists q, py_truediv c (PyInt 255) = Ok q.
Proof.
  unfold is_number. intros Hc.
  destruct (py_truediv c (PyInt 255)) as [q|e]; [|discriminate].
  exists q. reflexivity.
Qed.

Lemma color_of_row_at (df : DataFrame) (colors_get : PyVal -> PyVal)
    (i : nat) (gs : Series) :
  find_column "group" (columns df) = Some gs ->
  colourable (colors_get (nth i gs PyNone)) = true ->
  exists color, color_of_row colors_get (row_at df i) = Ok color.
Proof.
  intros Hgroup Hcolourable. unfold color_of_row.
  rewrite row_getitem_row_at, Hgroup. simpl.
  unfold colourable in Hcolourable.
  destruct (py_iter (colors_get (nth i gs PyNone))) as [components|]; [|discriminate].
  simpl.
  destruct (traverse_succeeds (fun c => py_truediv c (PyInt 255)) components)
    as [normalized [Hnormalized _]].
  { intros c Hc. apply divide_by_255.
    rewrite forallb_forall in Hcolourable. apply Hcolourable. exact Hc. }
  rewrite Hnormalized. simpl. eexists. reflexivity.
Qed.

(** ** Statements on [nodes] *)

Lemma bind_ok {S E A B} (c : Eff.M S E A) (k : A -> Eff.M S E B)
    (s s' : S) (a : A) :
  c s = (Ok a, s') -> Eff.bind c k s = k a s'.
Proof.
  intros Hc. unfold Eff.bind. rewrite Hc. reflexivity.
Qed.

Lemma bind_throw {S E A B} (c : Eff.M S E A) (k : A -> Eff.M S E B)
    (s s' : S) (e : E) :
  c s = (Throw e, s') -> Eff.bind c k s = (Throw e, s').
Proof.
  intros Hc. unfold Eff.bind. rewrite Hc. reflexivity.
Qed.

Section OnNodes.

Variables (df : DataFrame) (log : list Call).

Lemma nodes_apply_ok (f : Row -> Py PyVal) (series : Series) :
  df_apply_rows df f = Ok series ->
  nodes_apply f {| nodes := Some df; pdk_calls := log |} =
    (Ok series, {| nodes := Some df; pdk_calls := log |}).
Proof.
  intros Happly. unfold nodes_apply, Eff.bind, Eff.lift, get_nodes. simpl.
  rewrite Happly. reflexivity.
Qed.

Lemma nodes_apply_throw (f : Row -> Py PyVal) (e : PyError) :
  df_apply_rows df f = Throw e ->
  nodes_apply f {| nodes := Some df; pdk_calls := log |} =
    (Throw e, {| nodes := Some df; pdk_calls := log |}).
Proof.
  intros Happly. unfold nodes_apply, Eff.bind, Eff.lift, get_nodes. simpl.
  rewrite Happly. reflexivity.
Qed.

Lemma nodes_getitem_ok (name : string) (values : Series) :
  find_column name (columns df) = Some values ->
  nodes_getitem name {| nodes := Some df; pdk_calls := log |} =
    (Ok values, {| nodes := Some df; pdk_calls := log |}).
Proof.
  intros Hfound.
  unfold nodes_getitem, Eff.bind, Eff.lift, get_nodes, df_getitem. simpl.
  rewrite Hfound. reflexivity.
Qed.

Lemma nodes_setitem_new (name : string) (series : Series) :
  length series = index_len df ->
  find_column name (columns df) = None ->
  nodes_setitem name series {| nodes := Some df; pdk_calls := log |} =
    (Ok tt,
     {| nodes := Some {| index_len := index_len df;
                         columns := (columns df ++ [(name, series)])%list |};
        pdk_calls := log |}).
Proof.
  intros Hlen Hnew.
  unfold nodes_setitem, Eff.bind, Eff.lift, get_nodes, set_nodes, Eff.modify. simpl.
  rewrite (df_setitem_new df name series Hlen Hnew). reflexivity.
Qed.

Lemma nodes_delitem_present (name : string) (values : Series) :
  find_column name (columns df) = Some values ->
  nodes_delitem name {| nodes := Some df; pdk_calls := log |} =
    (Ok tt,
     {| nodes := Some {| index_len := index_len df;
                         columns := without name (columns df) |};
        pdk_calls := log |}).
Proof.
  intros Hfound.
  unfold nodes_delitem, Eff.bind, Eff.lift, get_nodes, set_nodes, Eff.modify. simpl.
  rewrite (df_delitem_present df name values Hfound). reflexivity.
Qed.

End OnNodes.

(** ** The cells *)

Lemma apply_position (df : DataFrame) (xs ys zs : Series) :
  find_column "x" (columns df) = Some xs ->
  find_column "y" (columns df) = Some ys ->
  find_column "z" (columns df) = Some zs ->
  df_apply_rows df position_of_row = Ok (position_column df).
Proof.
  intros Hx Hy Hz. unfold df_apply_rows, position_column.
  apply traverse_map. intros i _.
  exact (position_of_row_at df i xs ys zs Hx Hy Hz).
Qed.

Lemma cell_position_ok (df : DataFrame) (log : list Call) (xs ys zs : Series) :
  find_column "x" (columns df) = Some xs ->
  find_column "y" (columns df) = Some ys ->
  find_column "z" (columns df) = Some zs ->
  find_column "position" (columns df) = None ->
  cell_position {| nodes := Some df; pdk_calls := log |} =
    (Ok tt,
     {| nodes :=
          Some {| index_len := index_len df;
                  columns :=
                    (without "z" (without "y" (without "x" (columns df)))
                     ++ [("position", position_column df)])%list |};
        pdk_calls := log |}).
Proof.
  intros Hx Hy Hz Hposition. unfold cell_position.
  rewrite (bind_ok _ _ _ _ _
             (nodes_apply_ok df log _ _ (apply_position df xs ys zs Hx Hy Hz))).
  assert (Hlen : length (position_column df) = index_len df).
  { unfold position_column. rewrite length_map, length_seq. reflexivity. }
  rewrite (bind_ok _ _ _ _ _ (nodes_setitem_new df log "position" _ Hlen Hposition)).
  erewrite bind_ok.
  2:{ apply (nodes_delitem_present _ log "x" xs). simpl.
      rewrite find_column_app, Hx. reflexivity. }
  erewrite bind_ok.
  2:{ apply (nodes_delitem_present _ log "y" ys). simpl.
      rewrite without_app, find_column_app.
      rewrite find_column_without by discriminate. rewrite Hy. reflexivity. }
  erewrite (nodes_delitem_present _ log "z" zs).
  2:{ simpl. rewrite !without_app, find_column_app.
      rewrite !find_column_without by discriminate. rewrite Hz. reflexivity. }
  simpl. rewrite !without_app. reflexivity.
Qed.

Lemma cell_color_ok `{Outside} (df : DataFrame) (log : list Call) (gs : Series) :
  find_column "group" (columns df) = Some gs ->
  find_column "color" (columns df) = None ->
  (forall i, i < index_len df ->
     colourable (assign_random_colors gs (nth i gs PyNone)) = true) ->
  exists color,
    length color = index_len df
    /\ cell_color {| nodes := Some df; pdk_calls := log |} =
         (Ok tt,
          {| nodes :=
               Some {| index_len := index_len df;
                       columns :=
                         (without "group" (columns df) ++ [("color", color)])%list |};
             pdk_calls :=
               (log ++ [{| callee := "data_utils.assign_random_colors";
                           positional := [AVal (PyList gs)];
                           keywords := [] |}])%list |}).
Proof.
  intros Hgroup Hcolor Hcover.
  destruct (traverse_succeeds
              (fun i => color_of_row (assign_random_colors gs) (row_at df i))
              (seq 0 (index_len df))) as [color [Happly Hlen]].
  { intros i Hi. apply in_seq in Hi.
    apply (color_of_row_at df _ i gs Hgroup). apply Hcover. lia. }
  rewrite length_seq in Hlen.
  exists color. split; [exact Hlen|].
  unfold cell_color.
  rewrite (bind_ok _ _ _ _ _ (nodes_getitem_ok df log "group" gs Hgroup)).
  unfold pdk at 1. unfold Eff.bind at 1. cbv beta iota. simpl pdk_calls. simpl nodes.
  rewrite (bind_ok _ _ _ _ _ (nodes_apply_ok df _ _ _ Happly)).
  rewrite (bind_ok _ _ _ _ _ (nodes_setitem_new df _ "color" _ Hlen Hcolor)).
  erewrite (nodes_delitem_present _ _ "group" gs).
  2:{ simpl. rewrite find_column_app, Hgroup. reflexivity. }
  simpl. rewrite without_app. reflexivity.
Qed.

Lemma cell_deck_after_colors (df : DataFrame) (first : Call) :
  cell_deck {| nodes := Some df; pdk_calls := [first] |} =
    (Ok tt,
     {| nodes := Some df;
        pdk_calls := first :: tl (complete_calls [] df) |}).
Proof.
  reflexivity.
Qed.

(** ** The whole run *)

Lemma same_labels_spec (names expected : list string) :
  same_labels names expected = true ->
  (forall n, In n names -> In n expected) /\ (forall n, In n expected -> In n names).
Proof.
  unfold same_labels. intros Hsame.
  apply andb_true_iff in Hsame. destruct Hsame as [Hsub Hsup].
  rewrite forallb_forall in Hsub, Hsup.
  split; intros n Hn.
  - apply Hsub in Hn. apply existsb_exists in Hn.
    destruct Hn as [m [Hm Heq]]. apply String.eqb_eq in Heq. subst m. exact Hm.
  - apply Hsup in Hn. apply existsb_exists in Hn.
    destruct Hn as [m [Hm Heq]]. apply String.eqb_eq in Heq. subst m. exact Hm.
Qed.

Lemma column_values_found (df : DataFrame) (name : string) (values : Series) :
  find_column name (columns df) = Some values -> column_values df name = values.
Proof.
  intros Hfound. unfold column_values. rewrite Hfound. reflexivity.
Qed.

(** On a CSV with rows, with the labels of [generate_graph_data] and a
    colour for every group, the run completes: [nodes] ends as the
    two-column frame and the log holds the six calls. *)
Lemma run_complete `{Outside} :
  let csv := read_csv NODES_URL in
  0 < index_len csv ->
  same_labels (column_names csv) generate_graph_data_columns = true ->
  colors_cover csv (assign_random_colors (column_values csv "group")) = true ->
  exists color,
    length color = index_len csv
    /\ run = (Ok tt,
              {| nodes := Some (transformed csv color);
                 pdk_calls :=
                   complete_calls (column_values csv "group") (transformed csv color) |}).
Proof.
  intros csv _ Hlabels Hcover.
  destruct (same_labels_spec _ _ Hlabels) as [Hsub Hsup].
  unfold column_names in Hsub, Hsup.
  destruct (find_column_present "x" (columns csv)) as [xs Hx];
    [apply Hsup; simpl; auto|].
  destruct (find_column_present "y" (columns csv)) as [ys Hy];
    [apply Hsup; simpl; auto|].
  destruct (find_column_present "z" (columns csv)) as [zs Hz];
    [apply Hsup; simpl; auto|].
  destruct (find_column_present "group" (columns csv)) as [gs Hg];
    [apply Hsup; simpl; auto 6|].
  assert (Hposition : find_column "position" (columns csv) = None).
  { apply find_column_absent. intros Hin. apply Hsub in Hin. simpl in Hin.
    repeat (destruct Hin as [Hin | Hin]; [discriminate Hin|]). exact Hin. }
  assert (Hcolor : find_column "color" (columns csv) = None).
  { apply find_column_absent. intros Hin. apply Hsub in Hin. simpl in Hin.
    repeat (destruct Hin as [Hin | Hin]; [discriminate Hin|]). exact Hin. }
  rewrite (column_values_found csv "group" gs Hg) in *.
  set (positioned :=
         {| index_len := index_len csv;
            columns :=
              (without "z" (without "y" (without "x" (columns csv)))
               ++ [("position", position_column csv)])%list |}).
  destruct (cell_color_ok positioned [] gs) as [color [Hlen Hcell]].
  { simpl. rewrite find_column_app.
    rewrite !find_column_without by discriminate. rewrite Hg. reflexivity. }
  { simpl. rewrite find_column_app.
    rewrite !find_column_without by discriminate. rewrite Hcolor. reflexivity. }
  { simpl. intros i Hi. unfold colors_cover in Hcover.
    rewrite forallb_forall in Hcover.
    specialize (Hcover i). unfold value_at in Hcover.
    rewrite (column_values_found csv "group" gs Hg) in Hcover.
    apply Hcover. apply in_seq. lia. }
  exists color. split; [exact Hlen|].
  unfold run, notebook.
  rewrite (bind_ok cell_read _ fresh_kernel {| nodes := Some csv; pdk_calls := [] |} tt)
    by reflexivity.
  rewrite (bind_ok _ _ _ _ _ (cell_position_ok csv [] xs ys zs Hx Hy Hz Hposition)).
  fold positioned.
  rewrite (bind_ok _ _ _ _ _ Hcell).
  simpl columns. simpl index_len. rewrite without_app.
  rewrite (without_generated (columns csv) Hsub).
  simpl app. rewrite cell_deck_after_colors. reflexivity.
Qed.

(** C3: on a CSV with rows whose labels are those [generate_graph_data] gives
    ([x], [y], [z], [group]) and whose groups all have a colour, the run
    completes and the frame bound to [nodes], which is the frame passed as
    the layer's data, has the two columns [position] and [color] in this
    order; [position] holds for every row the list of its [x], [y] and [z]
    values, and none of [x], [y], [z], [group] is left. *)
Theorem C3_transformed_columns `{Outside} :
  let csv := read_csv NODES_URL in
  0 < index_len csv ->
  same_labels (column_names csv) generate_graph_data_columns = true ->
  colors_cover csv (assign_random_colors (column_values csv "group")) = true ->
  exists data,
    fst run = Ok tt
    /\ nodes (snd run) = Some data
    /\ map positional (calls_to "Layer" (pdk_calls (snd run))) =
         [[AVal (PyStr "PointCloudLayer"); AFrame data]]
    /\ column_names data = ["position"; "color"]
    /\ df_getitem data "position" = Ok (position_column csv)
    /\ (forall name, In name generate_graph_data_columns ->
          ~ In name (column_names data)).
Proof.
  intros csv Hrows Hlabels Hcover.
  destruct (run_complete Hrows Hlabels Hcover) as [color [_ Hrun]].
  fold csv in Hrun. rewrite Hrun.
  exists (transformed csv color).
  repeat split.
  intros name Hname Hin. simpl in Hname, Hin.
  repeat (destruct Hname as [<- | Hname];
          [destruct Hin as [Hin | [Hin | []]]; discriminate Hin|]).
  exact Hname.
Qed.

Lemma C3_transformed_columns_witness :
  exists data,
    nodes (snd (@run sample_outside)) = Some data
    /\ column_names data = ["position"; "color"].
Proof.
  destruct (@C3_transformed_columns sample_outside (Nat.lt_0_succ 1) eq_refl eq_refl)
    as [data [_ [Hnodes [_ [Hnames _]]]]].
  exists data. split; [exact Hnodes | exact Hnames].
Defined.

(** C9: on such a CSV, the run makes one [Layer] call; its data argument
    is the transformed frame bound to [nodes], [use_binary_transport] is
    [True], [get_position] and [get_color] are strings that name columns
    of that frame, as does every [get_] keyword whose value is a string,
    and [get_normal] and [highlight_color] are literal lists of
    integers. *)
Theorem C9_layer_consistent `{Outside} :
  let csv := read_csv NODES_URL in
  0 < index_len csv ->
  same_labels (column_names csv) generate_graph_data_columns = true ->
  colors_cover csv (assign_random_colors (column_values csv "group")) = true ->
  exists data layer,
    fst run = Ok tt
    /\ nodes (snd run) = Some data
    /\ calls_to "Layer" (pdk_calls (snd run)) = [layer]
    /\ positional layer = [AVal (PyStr "PointCloudLayer"); AFrame data]
    /\ keyword "use_binary_transport" (keywords layer) = Some (AVal (PyBool true))
    /\ keyword "get_position" (keywords layer) = Some (AVal (PyStr "position"))
    /\ keyword "get_color" (keywords layer) = Some (AVal (PyStr "color"))
    /\ (forall key column,
          In (key, AVal (PyStr column)) (keywords layer) ->
          String.prefix "get_" key = true ->
          In column (column_names data))
    /\ keyword "get_normal" (keywords layer) =
         Some (AVal (PyList [PyInt 10; PyInt 100; PyInt 10]))
    /\ keyword "highlight_color" (keywords layer) =
         Some (AVal (PyList [PyInt 255; PyInt 255; PyInt 0])).
Proof.
  intros csv Hrows Hlabels Hcover.
  destruct (run_complete Hrows Hlabels Hcover) as [color [_ Hrun]].
  fold csv in Hrun. rewrite Hrun.
  exists (transformed csv color).
  exists {| callee := "Layer";
            positional := [AVal (PyStr "PointCloudLayer"); AFrame (transformed csv color)];
            keywords := Layer_kwargs |}.
  repeat split.
  intros key column Hin Hprefix. simpl in Hin.
  repeat (destruct Hin as [Hin | Hin];
          [inversion Hin; subst; simpl; try discriminate Hprefix; auto|]).
  contradiction.
Qed.

Lemma C9_layer_consistent_witness :
  exists data layer,
    calls_to "Layer" (pdk_calls (snd (@run sample_outside))) = [layer]
    /\ positional layer = [AVal (PyStr "PointCloudLayer"); AFrame data]
    /\ keyword "get_position" (keywords layer) = Some (AVal (PyStr "position"))
    /\ keyword "get_color" (keywords layer) = Some (AVal (PyStr "color")).
Proof.
  destruct (@C9_layer_consistent sample_outside (Nat.lt_0_succ 1) eq_refl eq_refl)
    as [data [layer [_ [_ [Hcalls [Hdata [_ [Hposition [Hcolor _]]]]]]]]].
  exists data, layer.
  split; [exact Hcalls|]. split; [exact Hdata|].
  split; [exact Hposition | exact Hcolor].
Defined.

(** C4, as stated, fails: on the two-node CSV the run calls the binding
    six times, and the callees are not the four the claim lists;
    [data_utils.assign_random_colors] and [View] are called as well. *)
Lemma C4_more_than_four_calls :
  map callee (pdk_calls (snd (@run sample_outside)))
  <> ["ViewState"; "Layer"; "Deck"; "Deck.show"].
Proof.
  vm_compute. discriminate.
Qed.

(** C4, amended: on a CSV with rows, the generated labels and a colour for
    every group, the calls the notebook makes to the binding are, in order,
    [data_utils.assign_random_colors] on the group column, [ViewState]
    with [offset], [latitude], [longitude], [bearing], [pitch] and [zoom],
    [View] with [type] and [controller], [Layer] with the layer type, the
    frame and its keyword arguments, [Deck] with that layer, that view
    state, that view and [map_provider], and [show] on that deck. *)
Theorem C4_binding_calls `{Outside} :
  let csv := read_csv NODES_URL in
  0 < index_len csv ->
  same_labels (column_names csv) generate_graph_data_columns = true ->
  colors_cover csv (assign_random_colors (column_values csv "group")) = true ->
  exists data,
    nodes (snd run) = Some data
    /\ pdk_calls (snd run) = complete_calls (column_values csv "group") data
    /\ map callee (pdk_calls (snd run)) =
         [ "data_utils.assign_random_colors"; "ViewState"; "View"; "Layer";
           "Deck"; "Deck.show" ]
    /\ map fst ViewState_kwargs =
         ["offset"; "latitude"; "longitude"; "bearing"; "pitch"; "zoom"].
Proof.
  intros csv Hrows Hlabels Hcover.
  destruct (run_complete Hrows Hlabels Hcover) as [color [_ Hrun]].
  fold csv in Hrun. rewrite Hrun.
  exists (transformed csv color). repeat split.
Qed.

Lemma C4_binding_calls_witness :
  map callee (pdk_calls (snd (@run sample_outside))) =
    [ "data_utils.assign_random_colors"; "ViewState"; "View"; "Layer";
      "Deck"; "Deck.show" ].
Proof.
  destruct (@C4_binding_calls sample_outside (Nat.lt_0_succ 1) eq_refl eq_refl)
    as [data [_ [_ [Hcallees _]]]].
  exact Hcallees.
Defined.

(** ** A run on a CSV without [x] *)

Lemma cell_position_without_x (df : DataFrame) (log : list Call) :
  0 < index_len df ->
  find_column "x" (columns df) = None ->
  cell_position {| nodes := Some df; pdk_calls := log |} =
    (Throw (KeyError "x"), {| nodes := Some df; pdk_calls := log |}).
Proof.
  intros Hrows Hx. unfold cell_position.
  assert (Happly : df_apply_rows df position_of_row = Throw (KeyError "x")).
  { unfold df_apply_rows.
    destruct (index_len df) as [|n]; [inversion Hrows|].
    simpl seq. apply traverse_fails_first.
    unfold position_of_row. rewrite row_getitem_row_at, Hx. reflexivity. }
  apply bind_throw. apply nodes_apply_throw. exact Happly.
Qed.


End BinaryTransportFacts.


(** * Further properties of the functions in the source strings *)

Module MeshLayersMore.

Import MeshLayers.




(** A truthy [object] that has neither a [name] nor an [address], be it a
    plain object without these keys or a number, a string, [true] or an
    array, gets the text [undefined], a line break, [undefined]. *)
Theorem tooltip_of_object_without_fields `{Engine} (info : JSValue) (w : World) :
  nullish info = false ->
  ToBoolean (property_value info "object") = true ->
  property_value (property_value info "object") "name" = JSUndefined ->
  property_value (property_value info "object") "address" = JSUndefined ->
  fst (getTooltip info w) = Ok (JSString ("undefined" ++ nl ++ "undefined")).
Proof.
  intros Hinfo Hobject Hname Haddress.
  rewrite (MeshLayersFacts.getTooltip_truthy info w Hinfo Hobject).
  rewrite (MeshLayersFacts.tooltip_template_truthy _ _ Hobject).
  rewrite Hname, Haddress. reflexivity.
Qed.

Lemma tooltip_of_object_without_fields_witness :
  fst (@getTooltip sample_engine
         (JSObject [("object", JSArray [JSNumber 1; JSNumber 2])]) quarter_then_half)
  = Ok (JSString ("undefined" ++ nl ++ "undefined")).
Proof.
  apply (@tooltip_of_object_without_fields sample_engine); reflexivity.
Defined.




(** The tooltip function, [getPosition] and [getColor] never draw from
    [Math.random()], whatever they are given and whether they throw or
    not; each [getOrientation] draws exactly one value and reads no
    property. *)
Theorem effects_of_the_accessors `{Engine} (v : JSValue) (w : World) :
  (random_drawn (snd (getTooltip v w)) = random_drawn w
   /\ random_sequence (snd (getTooltip v w)) = random_sequence w)
  /\ (random_drawn (snd (getPosition v w)) = random_drawn w
      /\ random_sequence (snd (getPosition v w)) = random_sequence w)
  /\ (random_drawn (snd (getColor v w)) = random_drawn w
      /\ random_sequence (snd (getColor v w)) = random_sequence w)
  /\ (random_drawn (snd (ScenegraphLayer_getOrientation v w)) = S (random_drawn w)
      /\ property_reads (snd (ScenegraphLayer_getOrientation v w)) = property_reads w)
  /\ (random_drawn (snd (SimpleMeshLayer_getOrientation v w)) = S (random_drawn w)
      /\ property_reads (snd (SimpleMeshLayer_getOrientation v w)) = property_reads w).
Proof.
  split; [|split; [|split; [|split; split; reflexivity]]].
  - destruct (nullish v) eqn:Hv.
    + rewrite (MeshLayersFacts.getTooltip_nullish_argument v w Hv). split; reflexivity.
    + destruct (ToBoolean (property_value v "object")) eqn:Hobject.
      * rewrite (MeshLayersFacts.getTooltip_truthy v w Hv Hobject).
        rewrite (MeshLayersFacts.tooltip_template_truthy _ _ Hobject).
        split; reflexivity.
      * rewrite (MeshLayersFacts.getTooltip_falsy v w Hv Hobject). split; reflexivity.
  - unfold getPosition, Get. destruct (nullish v); split; reflexivity.
  - unfold getColor, Eff.bind, Get. destruct (nullish v); split; reflexivity.
Qed.

End MeshLayersMore.

(** * Further properties of the notebook *)

Module BinaryTransportMore.

Import BinaryTransport BinaryTransportFacts.

(** ** Columns the notebook does not name *)

Lemma cell_read_run `{Outside} :
  cell_read fresh_kernel =
    (Ok tt, {| nodes := Some (read_csv NODES_URL); pdk_calls := [] |}).
Proof.
  reflexivity.
Qed.

Lemma find_column_positioned (df : DataFrame) (name : string) :
  name <> "x" -> name <> "y" -> name <> "z" -> name <> "position" ->
  find_column name (columns (positioned df)) = find_column name (columns df).
Proof.
  intros Hx Hy Hz Hposition. unfold positioned. simpl columns.
  rewrite find_column_app, !find_column_without by assumption.
  destruct (find_column name (columns df)); [reflexivity|].
  cbn [find_column]. destruct (String.eqb_spec "position" name) as [Heq | _]; [|reflexivity].
  exfalso. apply Hposition. symmetry. exact Heq.
Qed.

Lemma colors_cover_spec (df : DataFrame) (colors_get : PyVal -> PyVal) (gs : Series) :
  find_column "group" (columns df) = Some gs ->
  colors_cover df colors_get = true ->
  forall i, i < index_len df -> colourable (colors_get (nth i gs PyNone)) = true.
Proof.
  intros Hgroup Hcover i Hi. unfold colors_cover in Hcover.
  rewrite forallb_forall in Hcover. specialize (Hcover i).
  unfold value_at in Hcover. rewrite (column_values_found df "group" gs Hgroup) in Hcover.
  apply Hcover. apply in_seq. lia.
Qed.

(** On a CSV with rows that has [x], [y], [z] and [group], no [position]
    and no [color], and a colour for every group, the run completes and
    every other column of the CSV is still in the frame given to the
    layer, in its place and with its values, before [position] and
    [color]: what the notebook does not name it does not delete. *)
Theorem other_columns_reach_the_layer `{Outside} :
  let csv := read_csv NODES_URL in
  0 < index_len csv ->
  (forall name, In name generate_graph_data_columns -> In name (column_names csv)) ->
  ~ In "position" (column_names csv) ->
  ~ In "color" (column_names csv) ->
  colors_cover csv (assign_random_colors (column_values csv "group")) = true ->
  exists color,
    length color = index_len csv
    /\ let data :=
         {| index_len := index_len csv;
            columns :=
              (without "group" (without "z" (without "y" (without "x" (columns csv))))
               ++ [("position", position_column csv); ("color", color)])%list |} in
       run = (Ok tt,
              {| nodes := Some data;
                 pdk_calls := complete_calls (column_values csv "group") data |}).
Proof.
  intros csv _ Hlabels Hposition Hcolor Hcover.
  unfold column_names in Hlabels.
  destruct (find_column_present "x" (columns csv)) as [xs Hx];
    [apply Hlabels; simpl; auto|].
  destruct (find_column_present "y" (columns csv)) as [ys Hy];
    [apply Hlabels; simpl; auto|].
  destruct (find_column_present "z" (columns csv)) as [zs Hz];
    [apply Hlabels; simpl; auto|].
  destruct (find_column_present "group" (columns csv)) as [gs Hg];
    [apply Hlabels; simpl; auto 6|].
  apply find_column_absent in Hposition. apply find_column_absent in Hcolor.
  rewrite (column_values_found csv "group" gs Hg) in *.
  destruct (cell_color_ok (positioned csv) [] gs) as [color [Hlen Hcell]].
  - rewrite find_column_positioned by discriminate. exact Hg.
  - rewrite find_column_positioned by discriminate. exact Hcolor.
  - exact (colors_cover_spec csv _ gs Hg Hcover).
  - exists color. split; [exact Hlen|].
    unfold run, notebook.
    rewrite (bind_ok _ _ _ _ _ cell_read_run).
    rewrite (bind_ok _ _ _ _ _ (cell_position_ok csv [] xs ys zs Hx Hy Hz Hposition)).
    fold (positioned csv).
    rewrite (bind_ok _ _ _ _ _ Hcell).
    unfold positioned. simpl columns. simpl index_len.
    rewrite without_app. simpl app.
    rewrite cell_deck_after_colors.
    simpl. rewrite <- app_assoc. reflexivity.
Qed.

Lemma other_columns_reach_the_layer_witness :
  exists data,
    nodes (snd (@run outside_with_index)) = Some data
    /\ column_names data = ["Unnamed: 0"; "position"; "color"].
Proof.
  destruct (@other_columns_reach_the_layer outside_with_index) as [color [_ Hrun]].
  - simpl. lia.
  - simpl. intros name Hname. tauto.
  - simpl. intros [Hin | [Hin | [Hin | [Hin | [Hin | []]]]]]; discriminate Hin.
  - simpl. intros [Hin | [Hin | [Hin | [Hin | [Hin | []]]]]]; discriminate Hin.
  - reflexivity.
  - eexists. rewrite Hrun. split; reflexivity.
Defined.

(** ** Runs that stop in the colour cell *)

Lemma nodes_getitem_absent (df : DataFrame) (log : list Call) (name : string) :
  find_column name (columns df) = None ->
  nodes_getitem name {| nodes := Some df; pdk_calls := log |} =
    (Throw (KeyError name), {| nodes := Some df; pdk_calls := log |}).
Proof.
  intros Hmissing.
  unfold nodes_getitem, Eff.bind, Eff.lift, get_nodes, df_getitem. simpl.
  rewrite Hmissing. reflexivity.
Qed.

(** On a CSV with rows that has [x], [y] and [z] but no [group] (and no
    [position]), the run stops with [KeyError: 'group'] in the colour
    cell.  No call has reached the binding, and [nodes] stays as the
    position cell left it: [x], [y] and [z] are gone, so running the
    position cell again would fail. *)
Theorem without_group_stops_after_position `{Outside} :
  let csv := read_csv NODES_URL in
  0 < index_len csv ->
  In "x" (column_names csv) ->
  In "y" (column_names csv) ->
  In "z" (column_names csv) ->
  ~ In "position" (column_names csv) ->
  ~ In "group" (column_names csv) ->
  run = (Throw (KeyError "group"),
         {| nodes := Some (positioned csv); pdk_calls := [] |})
  /\ forall log,
       fst (cell_position {| nodes := Some (positioned csv); pdk_calls := log |})
       = Throw (KeyError "x").
Proof.
  intros csv Hrows Hx Hy Hz Hposition Hgroup.
  destruct (find_column_present "x" (columns csv) Hx) as [xs Hxs].
  destruct (find_column_present "y" (columns csv) Hy) as [ys Hys].
  destruct (find_column_present "z" (columns csv) Hz) as [zs Hzs].
  apply find_column_absent in Hposition. apply find_column_absent in Hgroup.
  split.
  - unfold run, notebook.
    rewrite (bind_ok _ _ _ _ _ cell_read_run).
    rewrite (bind_ok _ _ _ _ _ (cell_position_ok csv [] xs ys zs Hxs Hys Hzs Hposition)).
    fold (positioned csv).
    apply bind_throw. unfold cell_color. apply bind_throw.
    apply nodes_getitem_absent.
    rewrite find_column_positioned by discriminate. exact Hgroup.
  - intros log.
    rewrite (cell_position_without_x (positioned csv) log); [reflexivity | exact Hrows |].
    unfold positioned. simpl columns.
    rewrite find_column_app.
    replace (find_column "x" (without "z" (without "y" (without "x" (columns csv)))))
      with (@None Series); [reflexivity|].
    symmetry. rewrite !find_column_without by discriminate.
    apply find_column_absent. unfold without. rewrite in_map_iff.
    intros [[k values] [Hk Hin]]. apply filter_In in Hin. simpl in Hk, Hin.
    subst k. destruct Hin as [_ Hin]. discriminate Hin.
Qed.

Lemma without_group_stops_after_position_witness :
  @run outside_without_group =
    (Throw (KeyError "group"),
     {| nodes := Some (positioned no_group); pdk_calls := [] |}).
Proof.
  apply (@without_group_stops_after_position outside_without_group).
  - simpl. lia.
  - simpl. tauto.
  - simpl. tauto.
  - simpl. tauto.
  - simpl. intros [Hin | [Hin | [Hin | []]]]; discriminate Hin.
  - simpl. intros [Hin | [Hin | [Hin | []]]]; discriminate Hin.
Defined.






(** ** Normalized colours *)

Lemma bytes_normalize_by_enumeration :
  forallb (fun n => normalizes (PyInt (Z.of_nat n))) (seq 0 256) = true.
Proof.
  vm_compute. reflexivity.
Qed.

Lemma byte_normalizes (c : PyVal) : byte_component c = true -> normalizes c = true.
Proof.
  destruct c as [| |z| | |]; simpl; try discriminate. intros Hbyte.
  apply andb_true_iff in Hbyte. destruct Hbyte as [Hlow Hhigh].
  apply Z.leb_le in Hlow, Hhigh.
  pose proof bytes_normalize_by_enumeration as Hall.
  rewrite forallb_forall in Hall.
  specialize (Hall (Z.to_nat z)).
  rewrite Z2Nat.id in Hall by exact Hlow.
  apply Hall. apply in_seq. lia.
Qed.

Lemma traverse_all {E A B} (f : A -> Eff.Outcome E B) (P : B -> bool) (l : list A) :
  (forall a, In a l -> exists b, f a = Ok b /\ P b = true) ->
  exists bs, Eff.traverse f l = Ok bs /\ length bs = length l /\ forallb P bs = true.
Proof.
  induction l as [|a rest IH]; intros Hall.
  - exists []. repeat split.
  - destruct (Hall a (or_introl eq_refl)) as [b [Hb HP]].
    destruct IH as [bs [Hbs [Hlen Hbs_ok]]].
    { intros c Hc. apply Hall. right. exact Hc. }
    exists (b :: bs). simpl. rewrite Hb. simpl. rewrite Hbs. simpl.
    rewrite Hlen, HP, Hbs_ok. repeat split.
Qed.

(** For a row whose group has a list of integers from 0 to 255 as its
    colour, the row's function returns a list of as many floats, each from
    0 to 1: dividing by 255 normalizes the colour. *)
Theorem colour_of_row_is_normalized
    (colors_get : PyVal -> PyVal) (row : Row) (group : PyVal) (components : list PyVal) :
  row_getitem row "group" = Ok group ->
  colors_get group = PyList components ->
  forallb byte_component components = true ->
  exists normalized,
    color_of_row colors_get row = Ok (PyList normalized)
    /\ length normalized = length components
    /\ forallb unit_interval normalized = true.
Proof.
  intros Hgroup Hcolor Hbytes.
  destruct (traverse_all (fun c => py_truediv c (PyInt 255)) unit_interval components)
    as [normalized [Hnormalized [Hlen Hunit]]].
  { intros c Hc. rewrite forallb_forall in Hbytes.
    pose proof (byte_normalizes c (Hbytes c Hc)) as Hc_ok.
    unfold normalizes in Hc_ok.
    destruct (py_truediv c (PyInt 255)) as [q|]; [|discriminate].
    exists q. split; [reflexivity | exact Hc_ok]. }
  exists normalized. split; [|split; assumption].
  unfold color_of_row. rewrite Hgroup. simpl. rewrite Hcolor. simpl.
  rewrite Hnormalized. reflexivity.
Qed.

Lemma colour_of_row_is_normalized_witness :
  exists normalized,
    color_of_row (two_colors []) (row_at two_nodes 0) = Ok (PyList normalized)
    /\ length normalized = 3
    /\ forallb unit_interval normalized = true.
Proof.
  apply (colour_of_row_is_normalized (two_colors []) (row_at two_nodes 0) (PyStr "T")
           [PyInt 255; PyInt 0; PyInt 51]); reflexivity.
Defined.

(** ** Whatever the CSV holds *)

Lemma find_column_replaced (name : string) (series old : Series)
    (cols : list (string * Series)) :
  find_column name cols = Some old ->
  find_column name
    (map (fun c => if String.eqb (fst c) name then (fst c, series) else c) cols)
  = Some series.
Proof.
  induction cols as [|[k values] rest IH]; simpl; intros Hfound.
  - discriminate.
  - destruct (String.eqb k name) eqn:Hk; simpl; rewrite Hk.
    + reflexivity.
    + exact (IH Hfound).
Qed.

Lemma find_column_beside_replaced (name other : string) (series : Series)
    (cols : list (string * Series)) :
  other <> name ->
  find_column other
    (map (fun c => if String.eqb (fst c) name then (fst c, series) else c) cols)
  = find_column other cols.
Proof.
  intros Hne. induction cols as [|[k values] rest IH]; simpl.
  - reflexivity.
  - destruct (String.eqb_spec k name) as [Hk | Hk]; simpl.
    + subst k. destruct (String.eqb_spec name other) as [Heq | _].
      * exfalso. apply Hne. symmetry. exact Heq.
      * exact IH.
    + destruct (String.eqb k other); [reflexivity | exact IH].
Qed.

(** What a successful [df[name] = series] leaves: the same index, the
    series under [name], every other column as it was. *)
Lemma df_setitem_spec (df df' : DataFrame) (name : string) (series : Series) :
  df_setitem df name series = Ok df' ->
  index_len df' = index_len df
  /\ length series = index_len df
  /\ find_column name (columns df') = Some series
  /\ (forall other, other <> name ->
        find_column other (columns df') = find_column other (columns df)).
Proof.
  unfold df_setitem. intros Hset.
  destruct (Nat.eqb (length series) (index_len df)) eqn:Hlen; simpl in Hset;
    [|discriminate].
  apply Nat.eqb_eq in Hlen.
  destruct (find_column name (columns df)) as [old|] eqn:Hold;
    inversion Hset; subst df'; clear Hset; simpl.
  - split; [reflexivity|]. split; [exact Hlen|].
    split; [exact (find_column_replaced name series old _ Hold)|].
    intros other Hother. exact (find_column_beside_replaced name other series _ Hother).
  - split; [reflexivity|]. split; [exact Hlen|].
    split.
    + rewrite find_column_app, Hold. cbn [find_column].
      rewrite String.eqb_refl. reflexivity.
    + intros other Hother. rewrite find_column_app.
      destruct (find_column other (columns df)); [reflexivity|].
      cbn [find_column]. destruct (String.eqb_spec name other) as [Heq | _];
        [|reflexivity].
      exfalso. apply Hother. symmetry. exact Heq.
Qed.

Lemma find_column_without_same (name : string) (cols : list (string * Series)) :
  find_column name (without name cols) = None.
Proof.
  induction cols as [|[k values] rest IH]; simpl.
  - reflexivity.
  - destruct (String.eqb k name) eqn:Hk; simpl.
    + exact IH.
    + rewrite Hk. exact IH.
Qed.

Lemma df_delitem_spec (df df' : DataFrame) (name : string) :
  df_delitem df name = Ok df' ->
  df' = {| index_len := index_len df; columns := without name (columns df) |}.
Proof.
  unfold df_delitem. intros Hdel.
  destruct (find_column name (columns df)); inversion Hdel. reflexivity.
Qed.

Lemma find_column_none_not_in (name : string) (cols : list (string * Series)) :
  find_column name cols = None -> ~ In name (map fst cols).
Proof.
  intros Hnone Hin. destruct (find_column_present name cols Hin) as [values Hsome].
  rewrite Hsome in Hnone. discriminate Hnone.
Qed.

Lemma traverse_determined {E A B} (f : A -> Eff.Outcome E B) (g : A -> B)
    (l : list A) (bs : list B) :
  (forall a b, In a l -> f a = Ok b -> b = g a) ->
  Eff.traverse f l = Ok bs -> bs = map g l.
Proof.
  revert bs. induction l as [|a rest IH]; intros bs Hdet Hrun; simpl in Hrun.
  - inversion Hrun. reflexivity.
  - destruct (f a) as [b|e] eqn:Ha; simpl in Hrun; [|discriminate].
    destruct (Eff.traverse f rest) as [bs'|e] eqn:Hrest; simpl in Hrun; [|discriminate].
    inversion Hrun; subst bs. simpl.
    rewrite (Hdet a b (or_introl eq_refl) Ha).
    rewrite (IH bs' (fun c d Hc => Hdet c d (or_intror Hc)) eq_refl).
    reflexivity.
Qed.

Lemma position_of_row_value (df : DataFrame) (i : nat) (v : PyVal) :
  position_of_row (row_at df i) = Ok v ->
  v = PyList [value_at df "x" i; value_at df "y" i; value_at df "z" i].
Proof.
  unfold position_of_row, value_at, column_values.
  rewrite !row_getitem_row_at.
  destruct (find_column "x" (columns df)); simpl; [|discriminate].
  destruct (find_column "y" (columns df)); simpl; [|discriminate].
  destruct (find_column "z" (columns df)); simpl; [|discriminate].
  intros Hv. inversion Hv. reflexivity.
Qed.

Lemma nodes_apply_run (df : DataFrame) (log : list Call) (f : Row -> Py PyVal) :
  nodes_apply f {| nodes := Some df; pdk_calls := log |} =
    (df_apply_rows df f, {| nodes := Some df; pdk_calls := log |}).
Proof.
  reflexivity.
Qed.

Lemma nodes_getitem_run (df : DataFrame) (log : list Call) (name : string) :
  nodes_getitem name {| nodes := Some df; pdk_calls := log |} =
    (df_getitem df name, {| nodes := Some df; pdk_calls := log |}).
Proof.
  reflexivity.
Qed.

Lemma nodes_setitem_run (df : DataFrame) (log : list Call) (name : string)
    (series : Series) :
  nodes_setitem name series {| nodes := Some df; pdk_calls := log |} =
    match df_setitem df name series with
    | Ok df' => (Ok tt, {| nodes := Some df'; pdk_calls := log |})
    | Throw e => (Throw e, {| nodes := Some df; pdk_calls := log |})
    end.
Proof.
  unfold nodes_setitem, Eff.bind, Eff.lift, get_nodes, set_nodes, Eff.modify. simpl.
  destruct (df_setitem df name series); reflexivity.
Qed.

Lemma nodes_delitem_run (df : DataFrame) (log : list Call) (name : string) :
  nodes_delitem name {| nodes := Some df; pdk_calls := log |} =
    match df_delitem df name with
    | Ok df' => (Ok tt, {| nodes := Some df'; pdk_calls := log |})
    | Throw e => (Throw e, {| nodes := Some df; pdk_calls := log |})
    end.
Proof.
  unfold nodes_delitem, Eff.bind, Eff.lift, get_nodes, set_nodes, Eff.modify. simpl.
  destruct (df_delitem df name); reflexivity.
Qed.

(** The position cell on any frame: it throws and leaves the log alone,
    or it returns with [position] set to the nested coordinates and [x],
    [y], [z] gone. *)
Lemma cell_position_cases (df : DataFrame) (log : list Call) :
  (exists e k,
     cell_position {| nodes := Some df; pdk_calls := log |} = (Throw e, k)
     /\ pdk_calls k = log)
  \/ (exists d,
        cell_position {| nodes := Some df; pdk_calls := log |} =
          (Ok tt, {| nodes := Some d; pdk_calls := log |})
        /\ index_len d = index_len df
        /\ find_column "position" (columns d) = Some (position_column df)
        /\ find_column "x" (columns d) = None
        /\ find_column "y" (columns d) = None
        /\ find_column "z" (columns d) = None).
Proof.
  unfold cell_position, Eff.bind.
  rewrite nodes_apply_run.
  destruct (df_apply_rows df position_of_row) as [ps|e] eqn:Happly;
    [|left; eexists; eexists; split; reflexivity].
  assert (Hps : ps = position_column df).
  { unfold position_column.
    apply (traverse_determined (fun i => position_of_row (row_at df i))); [|exact Happly].
    intros i v _ Hv. exact (position_of_row_value df i v Hv). }
  subst ps.
  rewrite nodes_setitem_run.
  destruct (df_setitem df "position" (position_column df)) as [d1|e] eqn:Hset;
    [|left; eexists; eexists; split; reflexivity].
  destruct (df_setitem_spec _ _ _ _ Hset) as [Hindex [_ [Hposition _]]].
  rewrite nodes_delitem_run.
  destruct (df_delitem d1 "x") as [d2|e] eqn:Hx;
    [|left; eexists; eexists; split; reflexivity].
  apply df_delitem_spec in Hx. subst d2.
  rewrite nodes_delitem_run.
  destruct (df_delitem _ "y") as [d3|e] eqn:Hy;
    [|left; eexists; eexists; split; reflexivity].
  apply df_delitem_spec in Hy. subst d3. simpl index_len. simpl columns.
  rewrite nodes_delitem_run.
  destruct (df_delitem _ "z") as [d4|e] eqn:Hz;
    [|left; eexists; eexists; split; reflexivity].
  apply df_delitem_spec in Hz. subst d4. simpl index_len. simpl columns.
  right. eexists. split; [reflexivity|]. simpl index_len. simpl columns.
  split; [exact Hindex|].
  split; [rewrite !find_column_without by discriminate; exact Hposition|].
  split; [rewrite !find_column_without by discriminate; apply find_column_without_same|].
  split; [rewrite find_column_without by discriminate; apply find_column_without_same|].
  apply find_column_without_same.
Qed.

(** The colour cell on any frame: it throws without a [Layer] call, or
    it returns with [color] set, one entry per row, and [group] gone, the
    other columns as they were. *)
Lemma cell_color_cases `{Outside} (df : DataFrame) :
  (exists e k,
     cell_color {| nodes := Some df; pdk_calls := [] |} = (Throw e, k)
     /\ calls_to "Layer" (pdk_calls k) = [])
  \/ (exists d first color,
        cell_color {| nodes := Some df; pdk_calls := [] |} =
          (Ok tt, {| nodes := Some d; pdk_calls := [first] |})
        /\ callee first = "data_utils.assign_random_colors"
        /\ index_len d = index_len df
        /\ find_column "color" (columns d) = Some color
        /\ length color = index_len df
        /\ find_column "group" (columns d) = None
        /\ (forall other, other <> "color" -> other <> "group" ->
              find_column other (columns d) = find_column other (columns df))).
Proof.
  destruct (cell_color {| nodes := Some df; pdk_calls := [] |}) as [o k] eqn:Hrun.
  unfold cell_color in Hrun. unfold Eff.bind at 1 in Hrun.
  rewrite nodes_getitem_run in Hrun.
  destruct (df_getitem df "group") as [gs|e];
    [|inversion Hrun; left; eexists; eexists; split; reflexivity].
  unfold pdk at 1 in Hrun. unfold Eff.bind at 1 in Hrun.
  cbv beta iota in Hrun. simpl pdk_calls in Hrun. simpl nodes in Hrun.
  unfold Eff.bind in Hrun. rewrite nodes_apply_run in Hrun.
  destruct (df_apply_rows df _) as [color|e];
    [|inversion Hrun; left; eexists; eexists; split; reflexivity].
  rewrite nodes_setitem_run in Hrun.
  destruct (df_setitem df "color" color) as [d1|e] eqn:Hset;
    [|inversion Hrun; left; eexists; eexists; split; reflexivity].
  destruct (df_setitem_spec _ _ _ _ Hset) as [Hindex [Hlen [Hcolor Hother]]].
  rewrite nodes_delitem_run in Hrun.
  destruct (df_delitem d1 "group") as [d2|e] eqn:Hdel;
    [|inversion Hrun; left; eexists; eexists; split; reflexivity].
  apply df_delitem_spec in Hdel. subst d2.
  inversion Hrun; subst o k; clear Hrun.
  right. eexists. eexists. exists color. split; [reflexivity|].
  simpl index_len. simpl columns.
  split; [reflexivity|].
  split; [exact Hindex|].
  split; [rewrite find_column_without by discriminate; exact Hcolor|].
  split; [exact Hlen|].
  split; [apply find_column_without_same|].
  intros other Hne_color Hne_group.
  rewrite find_column_without by exact Hne_group. exact (Hother other Hne_color).
Qed.

(** Whatever the CSV with rows holds and whatever the colour dict
    returns, a run either stops with an error without having called
    [Layer], or completes having called it once, on the frame bound to
    [nodes]; that frame has as many rows as the CSV, a [position] column
    with the nested coordinates of every row, a [color] column with one
    entry per row, and none of [x], [y], [z], [group]. *)
Theorem layer_gets_only_a_transformed_frame `{Outside} :
  let csv := read_csv NODES_URL in
  0 < index_len csv ->
  (exists e,
     fst run = Throw e /\ calls_to "Layer" (pdk_calls (snd run)) = [])
  \/ (exists data color,
        fst run = Ok tt
        /\ nodes (snd run) = Some data
        /\ calls_to "Layer" (pdk_calls (snd run)) = [layer_call data]
        /\ index_len data = index_len csv
        /\ df_getitem data "position" = Ok (position_column csv)
        /\ df_getitem data "color" = Ok color
        /\ length color = index_len csv
        /\ (forall name, In name generate_graph_data_columns ->
              ~ In name (column_names data))).
Proof.
  intros csv _. unfold run, notebook.
  rewrite (bind_ok _ _ _ _ _ cell_read_run). fold csv.
  destruct (cell_position_cases csv [])
    as [[e [k [Hcell Hlog]]] | [d [Hcell [Hindex [Hposition [Hx [Hy Hz]]]]]]].
  { left. exists e. rewrite (bind_throw _ _ _ _ _ Hcell). simpl.
    rewrite Hlog. split; reflexivity. }
  rewrite (bind_ok _ _ _ _ _ Hcell).
  destruct (cell_color_cases d)
    as [[e [k [Hcolor Hlog]]]
       | [data [first [color [Hcolor [Hfirst [Hindex' [Hcol [Hlen [Hgroup Hother]]]]]]]]]].
  { left. exists e. rewrite (bind_throw _ _ _ _ _ Hcolor). simpl.
    split; [reflexivity | exact Hlog]. }
  rewrite (bind_ok _ _ _ _ _ Hcolor).
  rewrite cell_deck_after_colors.
  right. exists data, color. simpl fst. simpl snd. simpl nodes. simpl pdk_calls.
  split; [reflexivity|]. split; [reflexivity|].
  split.
  { unfold calls_to. cbn [filter]. rewrite Hfirst. reflexivity. }
  split; [rewrite Hindex', Hindex; reflexivity|].
  split.
  { unfold df_getitem. rewrite (Hother "position") by discriminate.
    rewrite Hposition. reflexivity. }
  split; [unfold df_getitem; rewrite Hcol; reflexivity|].
  split; [rewrite Hlen; exact Hindex|].
  intros name Hname. apply find_column_none_not_in.
  simpl in Hname.
  destruct Hname as [<- | [<- | [<- | [<- | []]]]].
  - rewrite (Hother "x") by discriminate. exact Hx.
  - rewrite (Hother "y") by discriminate. exact Hy.
  - rewrite (Hother "z") by discriminate. exact Hz.
  - exact Hgroup.
Qed.

Lemma layer_gets_only_a_transformed_frame_witness :
  calls_to "Layer" (pdk_calls (snd (@run outside_without_colors))) = []
  /\ exists data, calls_to "Layer" (pdk_calls (snd (@run sample_outside))) = [layer_call data].
Proof.
  split.
  - destruct (@layer_gets_only_a_transformed_frame outside_without_colors (Nat.lt_0_succ 1))
      as [[e [_ Hnone]] | [data [color [Hok _]]]].
    + exact Hnone.
    + discriminate Hok.
  - destruct (@layer_gets_only_a_transformed_frame sample_outside (Nat.lt_0_succ 1))
      as [[e [Hfail _]] | [data [color [_ [_ [Hlayer _]]]]]].
    + discriminate Hfail.
    + exists data. exact Hlayer.
Defined.

End BinaryTransportMore.

(** * Where a run of the notebook ends *)

Module NotebookOutcomes.

Import BinaryTransport BinaryTransportFacts BinaryTransportMore.





(** ** The position cell *)



(** ** The colour cell *)





(** ** The run *)

Section Run.

Context `{Outside}.






End Run.

End NotebookOutcomes.

(** * Errors in the two files *)

Module ErrorFacts.

Import MeshLayers BinaryTransport.






End ErrorFacts.
